(** * pf2e_server: the Pathfinder 2E rule index and its fuzzy search tool

    A shallow embedding of [src/mcp/pf2e_server.py].

    - Python [str] values are [string]s over 8-bit characters.
    - The module-level dict [INDEX] is an insertion-ordered association list
      (a Python dict keeps the position a key was first inserted at).
    - [os.walk] is a pre-order traversal of a directory tree.
    - [pf2e_search] runs in a small state-and-exception monad: the state holds
      [INDEX], the files on disk and a log of the index look-ups and file
      opens performed so far.
    - [str.title], [thefuzz.process.extract], [json.load] and [json.dumps]
      are external; they are variables of the section that embeds the
      server.  What [open()] and the read give for a path is part of the
      state. *)

From Stdlib Require Import String Ascii List ZArith Bool Arith Lia.
Import ListNotations.
Open Scope string_scope.

(* ================================================================== *)
(** ** Python [str] methods used by the server *)

Module PyStr.

Definition char_eqb (a b : ascii) : bool := Ascii.eqb a b.

(** [s.startswith(p)] *)
Definition startswith (s p : string) : bool := String.prefix p s.

(** [s[n:]] for [0 <= n] *)
Fixpoint drop (n : nat) (s : string) : string :=
  match n, s with
  | O, _ => s
  | S _, EmptyString => EmptyString
  | S k, String _ s' => drop k s'
  end.

(** [s[:n]] for [0 <= n] *)
Fixpoint take (n : nat) (s : string) : string :=
  match n, s with
  | O, _ => EmptyString
  | S _, EmptyString => EmptyString
  | S k, String c s' => String c (take k s')
  end.

(** [s.endswith(suffix)]: the last [len(suffix)] characters of [s] are
    [suffix]. *)
Definition endswith (s suffix : string) : bool :=
  (String.length suffix <=? String.length s)%nat
  && String.eqb (drop (String.length s - String.length suffix) s) suffix.

(** The scan of [s.replace(old, new)] for a non-empty [old]: occurrences
    of [old] are found from left to right and do not overlap.  [skip]
    counts the characters of the occurrence just matched that are still
    to be passed over. *)
Fixpoint replace_scan (old new : string) (skip : nat) (s : string) : string :=
  match s with
  | EmptyString => EmptyString
  | String c s' =>
      match skip with
      | S k => replace_scan old new k s'
      | O =>
          if String.prefix old s
          then new ++ replace_scan old new (String.length old - 1) s'
          else String c (replace_scan old new 0 s')
      end
  end.

(** With an empty [old], Python puts [new] before every character and at
    the end. *)
Fixpoint interleave (new s : string) : string :=
  match s with
  | EmptyString => new
  | String c s' => new ++ String c (interleave new s')
  end.

(** [s.replace(old, new)] *)
Definition replace (s old new : string) : string :=
  match old with
  | EmptyString => interleave new s
  | String _ _ => replace_scan old new 0 s
  end.

Definition is_lower (c : ascii) : bool :=
  let n := nat_of_ascii c in ((97 <=? n) && (n <=? 122))%nat.

Definition is_upper (c : ascii) : bool :=
  let n := nat_of_ascii c in ((65 <=? n) && (n <=? 90))%nat.

Definition to_upper (c : ascii) : ascii :=
  if is_lower c then ascii_of_nat (nat_of_ascii c - 32) else c.

Definition to_lower (c : ascii) : ascii :=
  if is_upper c then ascii_of_nat (nat_of_ascii c + 32) else c.

(** The loop of [s.title()] on a string of ASCII characters: a cased
    character is upper-cased when the character before it is not cased, and
    lower-cased otherwise. *)
Fixpoint title_scan (previous_is_cased : bool) (s : string) : string :=
  match s with
  | EmptyString => EmptyString
  | String c s' =>
      let cased := is_lower c || is_upper c in
      String (if previous_is_cased then to_lower c else to_upper c)
             (title_scan cased s')
  end.

(** [s.title()] for a string [s] of ASCII characters. *)
Definition title_ascii (s : string) : string := title_scan false s.

(** [sep.join(parts)] *)
Definition join (sep : string) (parts : list string) : string :=
  String.concat sep parts.

(** [c.isspace()] on the ASCII range: tab, line feed, vertical tab, form
    feed, carriage return, the four separators 0x1c-0x1f and the space. *)
Definition isspace_char (c : ascii) : bool :=
  let n := nat_of_ascii c in
  (((9 <=? n) && (n <=? 13)) || ((28 <=? n) && (n <=? 31)) || (n =? 32))%nat.

(** Every character of [s] is white space; true of the empty string. *)
Fixpoint all_space (s : string) : bool :=
  match s with
  | EmptyString => true
  | String c s' => isspace_char c && all_space s'
  end.

(** [c in s] for a single character [c]. *)
Fixpoint has_char (c : ascii) (s : string) : bool :=
  match s with
  | EmptyString => false
  | String x s' => char_eqb x c || has_char c s'
  end.

(** [sub in s]: [sub] occurs in [s] as a contiguous substring. *)
Fixpoint contains (s sub : string) : bool :=
  String.prefix sub s
  || match s with
     | EmptyString => false
     | String _ s' => contains s' sub
     end.

End PyStr.

(* ================================================================== *)
(** ** [posixpath]: [os.path.join], [os.path.dirname], [os.path.basename] *)

Module PosixPath.
Import PyStr.

Definition sep : string := "/".
Definition sep_char : ascii := "/"%char.

(** [posixpath.join(a, b)] for one extra component. *)
Definition join (a b : string) : string :=
  if startswith b sep then b
  else if (String.eqb a "" || endswith a sep)%bool then a ++ b
  else a ++ sep ++ b.

(** [p.rfind('/') + 1]: the position just after the last separator, [0]
    when there is none. *)
Fixpoint after_last_sep (p : string) : nat :=
  match p with
  | EmptyString => 0
  | String c p' =>
      if has_char sep_char p' then S (after_last_sep p')
      else if char_eqb c sep_char then 1
      else 0
  end.

(** [head == '/' * len(head)] *)
Fixpoint all_sep (s : string) : bool :=
  match s with
  | EmptyString => true
  | String c s' => char_eqb c sep_char && all_sep s'
  end.

(** [head.rstrip('/')] *)
Fixpoint rstrip_sep (s : string) : string :=
  match s with
  | EmptyString => EmptyString
  | String c s' => if all_sep s then EmptyString else String c (rstrip_sep s')
  end.

(** [posixpath.dirname(p)] *)
Definition dirname (p : string) : string :=
  let i := after_last_sep p in
  let head := take i p in
  if (negb (String.eqb head "") && negb (all_sep head))%bool
  then rstrip_sep head
  else head.

(** [posixpath.basename(p)] *)
Definition basename (p : string) : string :=
  let i := after_last_sep p in
  drop i p.

End PosixPath.

(* ================================================================== *)
(** ** Python [dict] with [str] keys *)

Module PyDict.

(** The items in insertion order; no key occurs twice in a dict built by
    [setitem] from the empty one. *)
Definition dict (V : Type) : Type := list (string * V).

Definition empty {V : Type} : dict V := [].

(** [d[k] = v]: a key already present keeps its position and gets the new
    value; a new key goes to the end. *)
Fixpoint setitem {V : Type} (d : dict V) (k : string) (v : V) : dict V :=
  match d with
  | [] => [(k, v)]
  | (k', v') :: d' =>
      if String.eqb k' k then (k', v) :: d'
      else (k', v') :: setitem d' k v
  end.

(** [d[k]]; [None] stands for [KeyError]. *)
Fixpoint getitem {V : Type} (d : dict V) (k : string) : option V :=
  match d with
  | [] => None
  | (k', v') :: d' => if String.eqb k' k then Some v' else getitem d' k
  end.

(** [d.keys()], in iteration order. *)
Definition keys {V : Type} (d : dict V) : list string := map fst d.

(** [d[k] = v] for a pair [(k, v)]. *)
Definition assign {V : Type} (d : dict V) (kv : string * V) : dict V :=
  setitem d (fst kv) (snd kv).

End PyDict.

(* ================================================================== *)
(** ** The data directory and [os.walk] *)

Module Fs.

#[local] Unset Elimination Schemes.

(** A directory: the names of its plain files and its sub-directories, each
    list in the order the operating system reports the entries. *)
Inductive tree : Type :=
| Dir (files : list string) (subdirs : list (string * tree)).

#[local] Set Elimination Schemes.

(** [os.walk(top)]: the triple of a directory comes before those of its
    sub-directories, which are entered in listing order under
    [os.path.join(top, name)]. *)
Fixpoint walk (top : string) (t : tree)
  : list (string * list string * list string) :=
  match t with
  | Dir files subdirs =>
      (top, map fst subdirs, files)
      :: flat_map (fun entry => let '(name, sub) := entry in
                                walk (PosixPath.join top name) sub)
                  subdirs
  end.

End Fs.

(* ================================================================== *)
(** ** The index builder *)

Definition DATA_PATH : string := "/home/cjohannsen/src/pf2ools-data/core".

(** Line 19: the key derived from a file name. *)
Definition name_key (file : string) : string :=
  PyStr.replace (PyStr.replace (PyStr.replace file ".json" "") ";" ":") "_" " ".

(** Lines 16-20: the inner loop over the files of one directory. *)
Definition index_files (root : string) (files : list string)
    (global_map : PyDict.dict string) : PyDict.dict string :=
  fold_left
    (fun global_map file =>
       if PyStr.endswith file ".json"
       then PyDict.setitem global_map (name_key file) (PosixPath.join root file)
       else global_map)
    files global_map.

(** Lines 13-21, over the directory tree found at [DATA_PATH]. *)
Definition build_global_index (data : Fs.tree) : PyDict.dict string :=
  fold_left
    (fun global_map step => let '(root, _, files) := step in
                            index_files root files global_map)
    (Fs.walk DATA_PATH data) PyDict.empty.

(* ================================================================== *)
(** ** Program state, exceptions and the monad of the query handler *)

(** What a query does to the world outside its own locals. *)
Inductive event : Type :=
| IndexLookup (key : string)   (* INDEX[key] *)
| FileOpen (path : string).    (* open(path, 'r', encoding='utf-8') *)

(** Exceptions.  The handler raises the first two itself; the others come
    out of [open()], of the read inside [json.load] and of the parser.
    [OtherError] stands for an exception of any class not listed, named by
    its class. *)
Inductive exn : Type :=
| ValueError_unpack (got : nat)        (* a tuple of [got] items, not three *)
| KeyError (key : string)              (* INDEX[key] with [key] absent *)
| FileNotFoundError (path : string)    (* open(): no file at the path *)
| PermissionError (path : string)      (* open(): the file may not be read *)
| IsADirectoryError (path : string)    (* open(): the path is a directory *)
| UnicodeDecodeError                   (* the read: bytes that are not UTF-8 *)
| JSONDecodeError                      (* json.load(): malformed text *)
| OtherError (name : string).

Inductive outcome (A : Type) : Type :=
| Returned (a : A)
| Raised (e : exn).
Arguments Returned {A} a.
Arguments Raised {A} e.

(** The state of the program.  [disk s path] is what
    [open(path, 'r', encoding='utf-8')] followed by reading the whole file
    gives in the state [s]: the decoded text, or the exception raised by
    [open()] or by the read. *)
Record state : Type := mkState {
  INDEX : PyDict.dict string;          (* the module-level dict *)
  disk : string -> outcome string;     (* the files *)
  log : list event                     (* look-ups and opens so far *)
}.

Definition M (A : Type) : Type := state -> outcome A * state.

Definition ret {A : Type} (a : A) : M A := fun s => (Returned a, s).

Definition raise {A : Type} (e : exn) : M A := fun s => (Raised e, s).

(** A call of an external function: its value, or the exception it raises. *)
Definition call {A : Type} (result : outcome A) : M A := fun s => (result, s).

Definition bind {A B : Type} (m : M A) (k : A -> M B) : M B :=
  fun s => match m s with
           | (Returned a, s') => k a s'
           | (Raised e, s') => (Raised e, s')
           end.

Declare Scope py_scope.
Delimit Scope py_scope with py.
Notation "x <- m ;; k" := (bind m (fun x => k))
  (at level 61, m at next level, right associativity) : py_scope.
Notation "' pat <- m ;; k" := (bind m (fun x => match x with pat => k end))
  (at level 61, pat pattern, m at next level, right associativity) : py_scope.

Definition tell (e : event) : M unit :=
  fun s => (Returned tt, mkState (INDEX s) (disk s) (log s ++ [e])).

(** [INDEX[key]] *)
Definition index_getitem (key : string) : M string :=
  (_ <- tell (IndexLookup key) ;;
   fun s => match PyDict.getitem (INDEX s) key with
            | Some path => (Returned path, s)
            | None => (Raised (KeyError key), s)
            end)%py.

(** [open(path, 'r', encoding='utf-8')] followed by reading the text. *)
Definition open_read (path : string) : M string :=
  (_ <- tell (FileOpen path) ;;
   fun s => (disk s path, s))%py.

(** A tuple returned by [process.extract]: the matched choice, its score and
    whatever further items the scorer attaches (thefuzz documents 2-tuples
    for a plain collection of choices and 3-tuples, ending in the key, for a
    mapping). *)
Record fuzz_match : Type := mkMatch {
  choice : string;        (* m[0] *)
  score : Z;              (* m[1] *)
  extra : list string     (* m[2:] *)
}.

(** [match_name, score, _ = m] *)
Definition unpack3 (m : fuzz_match) : M (string * Z * string) :=
  match extra m with
  | [x] => ret (choice m, score m, x)
  | rest => raise (ValueError_unpack (2 + List.length rest))
  end.

Definition newline : string := String (ascii_of_nat 10) "".

(* ================================================================== *)
(** ** The query handler *)

Section Server.

(** [str.title], as the interpreter provides it. *)
Variable title : string -> string.

(** Parsed JSON documents, [json.load] on the text of a file (the document,
    or the exception the parser raises) and [json.dumps(data, indent=n)]. *)
Variable json_value : Type.
Variable json_load : string -> outcome json_value.
Variable json_dumps : json_value -> nat -> string.

(** [process.extract(query, choices, limit=n)] *)
Variable extract : string -> list string -> nat -> list fuzz_match.

(** Line 36 *)
Definition good_matches (matches : list fuzz_match) : list fuzz_match :=
  filter (fun m => (60 <? score m)%Z) matches.

(** Line 48: the text appended to [results]. *)
Definition block (match_name category : string) (data : json_value) : string :=
  "--- MATCH: " ++ title match_name ++ " (" ++ category ++ ") --- "
    ++ newline ++ json_dumps data 2.

(** Lines 43-48: the body of the loop for one match. *)
Definition retrieve (m : fuzz_match) : M string :=
  ('(match_name, _, _) <- unpack3 m ;;
   file_path <- index_getitem match_name ;;
   text <- open_read file_path ;;
   data <- call (json_load text) ;;
   let category := PosixPath.basename (PosixPath.dirname file_path) in
   ret (block match_name category data))%py.

(** Lines 41-48: the loop, [results] being the list built so far. *)
Fixpoint retrieve_all (ms : list fuzz_match) (results : list string)
  : M (list string) :=
  match ms with
  | [] => ret results
  | m :: ms' =>
      (b <- retrieve m ;;
       retrieve_all ms' (results ++ [b]))%py
  end.

(** Lines 27-50 *)
Definition pf2e_search (query : string) : M string :=
  fun s =>
    let matches := extract query (PyDict.keys (INDEX s)) 3 in
    let good := good_matches matches in
    match good with
    | [] => ret ("No rules found matching '" ++ query ++ "'.") s
    | _ :: _ =>
        (results <- retrieve_all good [] ;;
         ret (PyStr.join (newline ++ newline) results))%py s
    end.

End Server.

(* ================================================================== *)
(** ** What the statements below speak about *)

(** The (directory, file name) pairs in the order the two loops of
    [build_global_index] visit them. *)
Definition visited_files (data : Fs.tree) : list (string * string) :=
  flat_map (fun step => let '(root, _, files) := step in
                        map (fun file => (root, file)) files)
           (Fs.walk DATA_PATH data).

(** The visited files that pass the test of line 17. *)
Definition json_files (data : Fs.tree) : list (string * string) :=
  filter (fun rf => PyStr.endswith (snd rf) ".json") (visited_files data).

(** The assignment of line 20 for a visited file. *)
Definition index_entry (rf : string * string) : string * string :=
  (name_key (snd rf), PosixPath.join (fst rf) (snd rf)).

(** The key as the data model describes it: the extension at the end of the
    name is stripped, then [;] becomes [:] and [_] becomes a space. *)
Definition strip_extension (file : string) : string :=
  PyStr.take (String.length file - String.length ".json") file.

Definition described_key (file : string) : string :=
  PyStr.replace (PyStr.replace (strip_extension file) ";" ":") "_" " ".

(** The character-wise replacement [old -> new]. *)
Fixpoint map_chars (f : ascii -> ascii) (s : string) : string :=
  match s with
  | EmptyString => EmptyString
  | String c s' => String (f c) (map_chars f s')
  end.

Definition swap_char (old new : ascii) (c : ascii) : ascii :=
  if PyStr.char_eqb c old then new else c.

(** A query leaves the index and the files as they are. *)
Definition same_world (s s' : state) : Prop :=
  INDEX s' = INDEX s /\ disk s' = disk s.

(** The events one pass of the retrieval loop may add to the log for the
    match [m]. *)
Definition events_of (s : state) (m : fuzz_match) (evs : list event) : Prop :=
  forall e, In e evs ->
    e = IndexLookup (choice m)
    \/ exists path, PyDict.getitem (INDEX s) (choice m) = Some path
                    /\ e = FileOpen path.

Section ServerNotions.

Variable json_value : Type.
Variable json_load : string -> outcome json_value.

(** Every step of the loop body succeeds for the match [m]: the tuple has
    three items, its name is a key of [INDEX], the file opens and is read,
    and its text parses to [data]. *)
Definition loads (s : state) (m : fuzz_match) (path : string)
    (data : json_value) : Prop :=
  List.length (extra m) = 1
  /\ PyDict.getitem (INDEX s) (choice m) = Some path
  /\ exists text, disk s path = Returned text
                  /\ json_load text = Returned data.

(** The file the index names for [m] cannot be opened and read (it is gone,
    for one), or its text is malformed. *)
Definition stale (s : state) (m : fuzz_match) : Prop :=
  exists path,
    PyDict.getitem (INDEX s) (choice m) = Some path
    /\ ((exists e, disk s path = Raised e)
        \/ exists text e, disk s path = Returned text
                          /\ json_load text = Raised e).

End ServerNotions.

(** A name as the operating system lists it: not empty and without a
    separator. *)
Definition plain_name (name : string) : bool :=
  negb (String.eqb name "") && negb (PyStr.has_char PosixPath.sep_char name).

(** Every file and directory name of the tree is a plain name. *)
Fixpoint well_named (t : Fs.tree) : bool :=
  match t with
  | Fs.Dir files subdirs =>
      forallb plain_name files
      && forallb (fun entry => let '(name, sub) := entry in
                               plain_name name && well_named sub)
                 subdirs
  end.

(** [root] is the path of a directory called [dir]: it ends with the plain
    name [dir], which follows a separator or begins the path. *)
Definition names_directory (root dir : string) : Prop :=
  plain_name dir = true
  /\ exists front,
       root = front ++ dir
       /\ (front = "" \/ exists front', front = front' ++ PosixPath.sep).

(** The number of files opened in a log. *)
Fixpoint opens (evs : list event) : nat :=
  match evs with
  | [] => 0
  | FileOpen _ :: evs' => S (opens evs')
  | IndexLookup _ :: evs' => opens evs'
  end.

(* ================================================================== *)
(** ** A small instance: three rule files and a stand-in for the scorer *)

Module Demo.

Definition data : Fs.tree :=
  Fs.Dir ["README.md"]
    [ ("spell", Fs.Dir ["fireball.json"; "fire_shield.json"] []);
      ("condition", Fs.Dir ["grapple;condition.json"; "notes.txt"] []) ].

Definition index : PyDict.dict string := build_global_index data.

Definition fireball_path : string :=
  "/home/cjohannsen/src/pf2ools-data/core/spell/fireball.json".
Definition fire_shield_path : string :=
  "/home/cjohannsen/src/pf2ools-data/core/spell/fire_shield.json".
Definition grapple_path : string :=
  "/home/cjohannsen/src/pf2ools-data/core/condition/grapple;condition.json".

(** All three documents are on disk; each holds a JSON integer. *)
Definition disk_full (path : string) : outcome string :=
  if String.eqb path fireball_path then Returned "3"
  else if String.eqb path fire_shield_path then Returned "4"
  else if String.eqb path grapple_path then Returned "1"
  else Raised (FileNotFoundError path).

(** [fireball.json] was deleted after the index was built. *)
Definition disk_deleted (path : string) : outcome string :=
  if String.eqb path fireball_path then Raised (FileNotFoundError path)
  else disk_full path.

Definition started : state := mkState index disk_full [].
Definition after_delete : state := mkState index disk_deleted [].

Definition is_digit (c : ascii) : bool :=
  let n := nat_of_ascii c in ((48 <=? n) && (n <=? 57))%nat.

Fixpoint all_digits (s : string) : bool :=
  match s with
  | EmptyString => true
  | String c s' => is_digit c && all_digits s'
  end.

(** The texts of the demo that are JSON documents: a run of digits with no
    leading zero. *)
Definition is_integer (text : string) : bool :=
  match text with
  | EmptyString => false
  | String c EmptyString => is_digit c
  | String c rest => is_digit c && negb (PyStr.char_eqb c "0") && all_digits rest
  end.

(** [json.load] and [json.dumps] on the documents of the demo, which are
    kept as their text: an integer parses to itself and is printed back as
    it is; the demo holds no other well-formed document. *)
Definition json_value : Type := string.
Definition json_load (text : string) : outcome json_value :=
  if is_integer text then Returned text else Raised JSONDecodeError.
Definition json_dumps (doc : json_value) (indent : nat) : string := doc.

(** [str.title] on the keys of the demo, which are ASCII. *)
Definition title : string -> string := PyStr.title_ascii.

(** A stand-in for the scorer, in the shape [process.extract] has for a
    plain collection of choices such as [INDEX.keys()]: 2-tuples of a choice
    and its score, best first, at most [limit] of them.  The scores are 100
    for the query itself, 75 and 60 for choices sharing its first four or
    two characters, 0 otherwise and for a blank query. *)
Definition rate (query choice : string) : Z :=
  if PyStr.all_space query then 0%Z
  else if String.eqb query choice then 100%Z
  else if String.eqb (PyStr.take 4 query) (PyStr.take 4 choice) then 75%Z
  else if String.eqb (PyStr.take 2 query) (PyStr.take 2 choice) then 60%Z
  else 0%Z.

Fixpoint insert_ranked (m : fuzz_match) (ms : list fuzz_match)
  : list fuzz_match :=
  match ms with
  | [] => [m]
  | m' :: ms' =>
      if (score m' <? score m)%Z then m :: ms
      else m' :: insert_ranked m ms'
  end.

Definition extract (query : string) (choices : list string) (limit : nat)
  : list fuzz_match :=
  firstn limit
    (fold_right insert_ranked []
       (map (fun c => mkMatch c (rate query c) []) choices)).

Definition search : string -> M string :=
  pf2e_search title json_value json_load json_dumps extract.

End Demo.

(* ================================================================== *)
(** * Facts about strings *)

Module PyStrFacts.
Import PyStr.

Lemma char_eqb_eq (a b : ascii) : char_eqb a b = true <-> a = b.
Proof. apply Ascii.eqb_eq. Qed.

Lemma char_eqb_neq (a b : ascii) : char_eqb a b = false <-> a <> b.
Proof. apply Ascii.eqb_neq. Qed.

Lemma prefix_empty (s : string) : String.prefix "" s = true.
Proof. now destruct s. Qed.

Lemma prefix_cons (a : ascii) (sub : string) (c : ascii) (s : string) :
  String.prefix (String a sub) (String c s)
  = (char_eqb a c && String.prefix sub s)%bool.
Proof.
  simpl. unfold char_eqb. destruct (ascii_dec a c) as [->|N].
  - now rewrite Ascii.eqb_refl.
  - apply Ascii.eqb_neq in N. now rewrite N.
Qed.

Lemma take_drop (n : nat) : forall s, take n s ++ drop n s = s.
Proof.
  induction n as [|n IH]; intros [|c s]; simpl; try reflexivity.
  now rewrite IH.
Qed.

(** A string that ends with [suffix] is its front part followed by
    [suffix]. *)
Lemma endswith_split (s suffix : string) :
  endswith s suffix = true ->
  s = take (String.length s - String.length suffix) s ++ suffix.
Proof.
  unfold endswith. intros H. apply andb_prop in H as [_ H].
  apply String.eqb_eq in H.
  pose proof (take_drop (String.length s - String.length suffix) s) as T.
  rewrite H in T. symmetry. exact T.
Qed.

(** *** Replacing one character *)

Lemma replace_char (s : string) (a b : ascii) :
  replace s (String a "") (String b "") = map_chars (swap_char a b) s.
Proof.
  unfold replace. induction s as [|c s IH]; [reflexivity|].
  cbn [replace_scan map_chars]. rewrite prefix_cons, prefix_empty, andb_true_r.
  cbn [String.length Nat.sub]. rewrite IH. unfold swap_char, char_eqb.
  rewrite (Ascii.eqb_sym c a).
  now destruct (Ascii.eqb a c).
Qed.

Lemma has_char_swapped (a b : ascii) (s : string) :
  a <> b -> has_char a (map_chars (swap_char a b) s) = false.
Proof.
  intros N. induction s as [|c s IH]; [reflexivity|].
  cbn [map_chars has_char]. rewrite IH, orb_false_r. unfold swap_char.
  destruct (char_eqb c a) eqn:E.
  - apply char_eqb_neq. congruence.
  - exact E.
Qed.

Lemma has_char_swap_other (c a b : ascii) (s : string) :
  c <> b -> has_char c s = false ->
  has_char c (map_chars (swap_char a b) s) = false.
Proof.
  intros N. induction s as [|x s IH]; [reflexivity|].
  cbn [map_chars has_char]. intros H.
  apply orb_false_elim in H as [H1 H2]. rewrite (IH H2), orb_false_r.
  unfold swap_char. destruct (char_eqb x a).
  - apply char_eqb_neq. congruence.
  - exact H1.
Qed.

(** *** Occurrences of a substring under a character map *)

Lemma prefix_map_chars (f : ascii -> ascii) (sub : string) :
  (forall x, has_char (f x) sub = true -> f x = x) ->
  forall s, String.prefix sub (map_chars f s) = true ->
            String.prefix sub s = true.
Proof.
  induction sub as [|a sub IH]; intros Hf s H; [apply prefix_empty|].
  destruct s as [|c s]; [discriminate H|].
  cbn [map_chars] in H. rewrite prefix_cons in *.
  apply andb_prop in H as [H1 H2]. apply char_eqb_eq in H1.
  assert (E : f c = c).
  { apply Hf. cbn [has_char]. rewrite H1.
    unfold char_eqb. now rewrite Ascii.eqb_refl. }
  apply andb_true_intro. split.
  - apply char_eqb_eq. congruence.
  - apply IH; [|exact H2]. intros x Hx. apply Hf.
    cbn [has_char]. rewrite Hx. apply orb_true_r.
Qed.

Lemma contains_cons (c : ascii) (s sub : string) :
  contains (String c s) sub
  = (String.prefix sub (String c s) || contains s sub)%bool.
Proof. reflexivity. Qed.

Lemma contains_map_chars (f : ascii -> ascii) (sub : string) :
  (forall x, has_char (f x) sub = true -> f x = x) ->
  forall s, contains s sub = false -> contains (map_chars f s) sub = false.
Proof.
  intros Hf. induction s as [|c s IH]; intros H.
  - cbn [map_chars]. destruct (contains "" sub) eqn:E; [|reflexivity].
    exact H.
  - rewrite contains_cons in H. apply orb_false_elim in H as [H1 H2].
    cbn [map_chars]. rewrite contains_cons, (IH H2), orb_false_r.
    destruct (String.prefix sub (String (f c) (map_chars f s))) eqn:E;
      [|reflexivity].
    apply (prefix_map_chars f sub Hf (String c s)) in E. congruence.
Qed.

Lemma swap_char_fixes (a b : ascii) (sub : string) :
  has_char b sub = false ->
  forall x, has_char (swap_char a b x) sub = true -> swap_char a b x = x.
Proof.
  intros Hb x. unfold swap_char. destruct (char_eqb x a); [|reflexivity].
  congruence.
Qed.

(** *** Removing the extension *)

(** An occurrence of [.json] cannot begin inside the stem and end inside
    the extension that follows it: the dot is its only dot. *)
Lemma prefix_json_no_straddle (stem : string) :
  stem <> "" ->
  String.prefix ".json" (stem ++ ".json") = true ->
  String.prefix ".json" stem = true.
Proof.
  intros NE.
  destruct stem as [|c0 [|c1 [|c2 [|c3 [|c4 rest]]]]];
    [now destruct NE| | | | |];
    cbn [String.append]; rewrite ?prefix_cons, ?prefix_empty;
    unfold char_eqb; intros H;
    repeat match type of H with
           | (_ && _)%bool = true => apply andb_prop in H as [? H]
           end;
    repeat match goal with
           | E : Ascii.eqb _ _ = true |- _ => apply Ascii.eqb_eq in E
           end;
    subst; try discriminate; reflexivity.
Qed.

Lemma replace_scan_stem (stem : string) :
  contains stem ".json" = false ->
  replace_scan ".json" "" 0 (stem ++ ".json") = stem.
Proof.
  induction stem as [|c stem IH]; intros H; [reflexivity|].
  rewrite contains_cons in H. apply orb_false_elim in H as [H1 H2].
  cbn [String.append replace_scan].
  destruct (String.prefix ".json" (String c (stem ++ ".json"))) eqn:E.
  - apply (prefix_json_no_straddle (String c stem)) in E;
      [congruence | discriminate].
  - now rewrite (IH H2).
Qed.

End PyStrFacts.

(* ================================================================== *)
(** * Facts about paths *)

Module PosixPathFacts.
Import PyStr PyStrFacts PosixPath.

Lemma append_assoc (a b c : string) : (a ++ b) ++ c = a ++ (b ++ c).
Proof. induction a as [|x a IH]; simpl; [reflexivity | now rewrite IH]. Qed.

Lemma has_char_app (c : ascii) (a b : string) :
  has_char c (a ++ b) = (has_char c a || has_char c b)%bool.
Proof.
  induction a as [|x a IH]; simpl; [reflexivity|].
  now rewrite IH, orb_assoc.
Qed.

Lemma take_app (a b : string) : take (String.length a) (a ++ b) = a.
Proof. induction a as [|x a IH]; simpl; [now destruct b | now rewrite IH]. Qed.

Lemma drop_app (a b : string) : drop (String.length a) (a ++ b) = b.
Proof. induction a as [|x a IH]; simpl; [reflexivity | exact IH]. Qed.

(** The position after the last separator of [a/b] when [b] has none. *)
Lemma after_last_sep_app (a b : string) :
  has_char sep_char b = false ->
  after_last_sep (a ++ sep ++ b) = S (String.length a).
Proof.
  intros Hb. induction a as [|x a IH].
  - cbn. now rewrite Hb.
  - cbn [String.append after_last_sep String.length].
    rewrite has_char_app. unfold sep at 1. cbn [String.append has_char].
    unfold char_eqb at 1. rewrite Ascii.eqb_refl, orb_true_r.
    now rewrite IH.
Qed.

Lemma after_last_sep_none (b : string) :
  has_char sep_char b = false -> after_last_sep b = 0.
Proof.
  destruct b as [|x b]; [reflexivity|]. cbn [has_char after_last_sep].
  intros H. apply orb_false_elim in H as [H1 H2]. now rewrite H2, H1.
Qed.

Lemma all_sep_has_other (a d b : string) :
  d <> "" -> has_char sep_char d = false -> all_sep (a ++ d ++ b) = false.
Proof.
  intros NE Hd. induction a as [|x a IH].
  - destruct d as [|c d]; [now destruct NE|].
    cbn [has_char] in Hd. apply orb_false_elim in Hd as [Hc _].
    cbn. now rewrite Hc.
  - cbn [String.append all_sep]. rewrite IH. apply andb_false_r.
Qed.

Lemma rstrip_sep_after (d : string) :
  has_char sep_char d = false -> rstrip_sep (d ++ sep) = d.
Proof.
  induction d as [|c d IH]; intros H; [reflexivity|].
  cbn [has_char] in H. apply orb_false_elim in H as [Hc Hd].
  cbn [String.append rstrip_sep all_sep]. rewrite Hc. cbn [andb].
  now rewrite IH.
Qed.

Lemma rstrip_sep_dir (a d : string) :
  d <> "" -> has_char sep_char d = false ->
  rstrip_sep (a ++ d ++ sep) = a ++ d.
Proof.
  intros NE Hd. induction a as [|x a IH].
  - now apply rstrip_sep_after.
  - cbn [String.append rstrip_sep].
    pose proof (all_sep_has_other (String x a) d sep NE Hd) as F.
    cbn [String.append] in F. now rewrite F, IH.
Qed.

Lemma endswith_sep_false (a d : string) :
  d <> "" -> has_char sep_char d = false -> endswith (a ++ d) sep = false.
Proof.
  intros NE Hd. unfold endswith. apply andb_false_intro2.
  apply String.eqb_neq. cbn [String.length sep].
  induction a as [|x a IH].
  - cbn [String.append]. clear NE.
    destruct d as [|c d]; [discriminate|]. revert c Hd.
    induction d as [|c' d IHd]; intros c Hd.
    + cbn in *. apply orb_false_elim in Hd as [Hc _].
      apply char_eqb_neq in Hc. unfold sep, sep_char in *. congruence.
    + cbn [String.length Nat.sub drop]. cbn [has_char] in Hd.
      apply orb_false_elim in Hd as [_ Hd].
      specialize (IHd c' Hd). cbn [String.length Nat.sub] in IHd.
      now rewrite Nat.sub_0_r in *.
  - cbn [String.append String.length Nat.sub].
    destruct (a ++ d) as [|y r] eqn:E.
    + destruct a; [destruct d; [now destruct NE|]|]; discriminate.
    + cbn [String.length Nat.sub drop] in *. now rewrite Nat.sub_0_r in *.
Qed.

(** The directory a name is joined under: [root] followed by a separator
    unless [root] is empty or ends with one. *)
Lemma join_plain (root name : string) :
  name <> "" -> has_char sep_char name = false ->
  exists front,
    join root name = front ++ name
    /\ (front = "" \/ exists front', front = front' ++ sep).
Proof.
  intros NE Hn. unfold join, startswith.
  assert (P : String.prefix sep name = false).
  { destruct name as [|c name]; [now destruct NE|].
    cbn [has_char] in Hn. apply orb_false_elim in Hn as [Hc _].
    unfold sep. rewrite prefix_cons, prefix_empty, andb_true_r.
    unfold char_eqb in *. now rewrite Ascii.eqb_sym. }
  rewrite P. destruct (String.eqb_spec root "") as [->|NR]; cbn [orb].
  - exists "". split; [reflexivity | now left].
  - destruct (endswith root sep) eqn:E.
    + exists root. split; [reflexivity|]. right.
      apply endswith_split in E. eauto.
    + exists (root ++ sep). split; [now rewrite append_assoc|]. right. eauto.
Qed.

(** Line 47 on a path made by the index builder: for a file of the
    directory [dir] entered under [parent], the category is [dir]. *)
Lemma category_is_directory_name (parent dir file : string) :
  dir <> "" -> has_char sep_char dir = false ->
  file <> "" -> has_char sep_char file = false ->
  basename (dirname (join (join parent dir) file)) = dir.
Proof.
  intros NEd Hd NEf Hf.
  destruct (join_plain parent dir NEd Hd) as (front & -> & Hfront).
  assert (J : join (front ++ dir) file = (front ++ dir) ++ sep ++ file).
  { unfold join, startswith.
    destruct (String.prefix sep file) eqn:P.
    - destruct file as [|c file]; [now destruct NEf|].
      unfold sep in P. rewrite prefix_cons in P.
      apply andb_prop in P as [P _]. cbn [has_char] in Hf.
      apply orb_false_elim in Hf as [Hc _].
      unfold char_eqb, sep_char in *. rewrite Ascii.eqb_sym in P.
      congruence.
    - rewrite (endswith_sep_false front dir NEd Hd), orb_false_r.
      destruct (String.eqb_spec (front ++ dir) "") as [E|_]; [|reflexivity].
      destruct front; [|discriminate]. now destruct NEd. }
  rewrite J. unfold dirname, basename.
  rewrite (after_last_sep_app (front ++ dir) file Hf).
  assert (T : take (S (String.length (front ++ dir)))
                   ((front ++ dir) ++ sep ++ file)
              = front ++ dir ++ sep).
  { rewrite <- (append_assoc (front ++ dir) sep file).
    replace (S (String.length (front ++ dir)))
      with (String.length ((front ++ dir) ++ sep)).
    - rewrite take_app. apply append_assoc.
    - clear. induction (front ++ dir) as [|x a IH]; simpl; congruence. }
  rewrite T, (all_sep_has_other front dir sep NEd Hd).
  assert (N : String.eqb (front ++ dir ++ sep) "" = false).
  { apply String.eqb_neq. destruct front; [|discriminate].
    destruct dir; [now destruct NEd | discriminate]. }
  rewrite N. cbn [negb andb]. rewrite (rstrip_sep_dir front dir NEd Hd).
  destruct Hfront as [->|(front' & ->)].
  - cbn [String.append]. now rewrite (after_last_sep_none dir Hd).
  - rewrite append_assoc, (after_last_sep_app front' dir Hd).
    replace (S (String.length front'))
      with (String.length (front' ++ sep)).
    + rewrite <- append_assoc. apply drop_app.
    + clear. induction front' as [|x a IH]; simpl; congruence.
Qed.

End PosixPathFacts.

(* ================================================================== *)
(** * Facts about dicts *)

Module PyDictFacts.
Import PyDict.

Section Dict.
Context {V : Type}.
Implicit Types (d : dict V) (k : string) (v : V).

Lemma keys_setitem d k v k' :
  In k' (keys (setitem d k v)) <-> k' = k \/ In k' (keys d).
Proof.
  unfold keys. induction d as [|[k0 v0] d IH]; simpl.
  - intuition congruence.
  - destruct (String.eqb_spec k0 k) as [->|N]; simpl.
    + intuition congruence.
    + rewrite IH. intuition congruence.
Qed.

Lemma NoDup_keys_setitem d k v :
  NoDup (keys d) -> NoDup (keys (setitem d k v)).
Proof.
  induction d as [|[k0 v0] d IH]; simpl; intros ND.
  - constructor; [intros []|constructor].
  - inversion ND as [|? ? Hnot Hd]; subst.
    destruct (String.eqb_spec k0 k) as [->|N]; simpl.
    + now constructor.
    + constructor; [|now apply IH].
      intros Hin. apply (keys_setitem d k v k0) in Hin as [E|Hin];
        [congruence | now apply Hnot].
Qed.

Lemma getitem_setitem_same d k v : getitem (setitem d k v) k = Some v.
Proof.
  induction d as [|[k0 v0] d IH]; simpl.
  - now rewrite String.eqb_refl.
  - destruct (String.eqb_spec k0 k) as [->|N]; simpl.
    + now rewrite String.eqb_refl.
    + apply String.eqb_neq in N. now rewrite N.
Qed.

Lemma getitem_setitem_other d k v k' :
  k' <> k -> getitem (setitem d k v) k' = getitem d k'.
Proof.
  intros N. induction d as [|[k0 v0] d IH]; simpl.
  - apply not_eq_sym, String.eqb_neq in N. now rewrite N.
  - destruct (String.eqb_spec k0 k) as [->|N0]; simpl.
    + apply not_eq_sym, String.eqb_neq in N. now rewrite N.
    + now rewrite IH.
Qed.

(** *** A run of assignments [d[k] = v] *)

Lemma keys_assign_all (kvs : list (string * V)) : forall d k,
  In k (keys (fold_left assign kvs d))
  <-> In k (keys d) \/ In k (map fst kvs).
Proof.
  induction kvs as [|kv kvs IH]; intros d k; simpl.
  - intuition.
  - rewrite IH. unfold assign. rewrite keys_setitem.
    intuition congruence.
Qed.

Lemma NoDup_keys_assign_all (kvs : list (string * V)) : forall d,
  NoDup (keys d) -> NoDup (keys (fold_left assign kvs d)).
Proof.
  induction kvs as [|kv kvs IH]; intros d ND; simpl; [exact ND|].
  apply IH. now apply NoDup_keys_setitem.
Qed.

Lemma getitem_assign_absent (kvs : list (string * V)) : forall d k,
  ~ In k (map fst kvs) ->
  getitem (fold_left assign kvs d) k = getitem d k.
Proof.
  induction kvs as [|kv kvs IH]; intros d k Hnot; simpl; [reflexivity|].
  simpl in Hnot. rewrite IH by tauto.
  apply getitem_setitem_other. intros E. apply Hnot. now left.
Qed.

(** The last assignment to a key is the one that stays. *)
Lemma getitem_assign_last (pre post : list (string * V)) d k v :
  ~ In k (map fst post) ->
  getitem (fold_left assign (pre ++ (k, v) :: post) d) k = Some v.
Proof.
  intros Hnot. rewrite fold_left_app. simpl.
  rewrite getitem_assign_absent by exact Hnot.
  apply getitem_setitem_same.
Qed.

End Dict.

End PyDictFacts.

(* ================================================================== *)
(** * Facts about the index builder *)

Module IndexFacts.
Import PyStr PyStrFacts PyDict PyDictFacts.

(** The inner loop is a run of assignments, one per [.json] file. *)
Lemma index_files_assign (root : string) (files : list string) :
  forall global_map,
    index_files root files global_map
    = fold_left assign
        (map index_entry
           (filter (fun rf => endswith (snd rf) ".json")
                   (map (fun file => (root, file)) files)))
        global_map.
Proof.
  unfold index_files.
  induction files as [|file files IH]; intros global_map; [reflexivity|].
  cbn [fold_left map filter snd].
  destruct (endswith file ".json"); rewrite IH; reflexivity.
Qed.

Lemma walk_steps_assign
    (steps : list (string * list string * list string)) :
  forall global_map,
    fold_left
      (fun global_map step => let '(root, _, files) := step in
                              index_files root files global_map)
      steps global_map
    = fold_left assign
        (map index_entry
           (filter (fun rf => endswith (snd rf) ".json")
              (flat_map (fun step => let '(root, _, files) := step in
                                     map (fun file => (root, file)) files)
                        steps)))
        global_map.
Proof.
  induction steps as [|[[root dirs] files] steps IH]; intros global_map;
    [reflexivity|].
  cbn [fold_left flat_map].
  rewrite filter_app, map_app, fold_left_app, IH.
  now rewrite index_files_assign.
Qed.

(** The two loops together: the index is what the assignments for the
    [.json] files, in traversal order, leave in an empty dict. *)
Lemma build_global_index_assign (data : Fs.tree) :
  build_global_index data
  = fold_left assign (map index_entry (json_files data)) empty.
Proof. apply walk_steps_assign. Qed.

Lemma map_fst_index_entry (rfs : list (string * string)) :
  map fst (map index_entry rfs) = map (fun rf => name_key (snd rf)) rfs.
Proof. rewrite map_map. reflexivity. Qed.

(** *** The derived key *)

Lemma name_key_chars (file : string) :
  name_key file
  = map_chars (swap_char "_" " ")
      (map_chars (swap_char ";" ":") (replace file ".json" "")).
Proof. unfold name_key. now rewrite !replace_char. Qed.

Lemma described_key_chars (file : string) :
  described_key file
  = map_chars (swap_char "_" " ")
      (map_chars (swap_char ";" ":") (strip_extension file)).
Proof. unfold described_key. now rewrite !replace_char. Qed.

Lemma name_key_no_semicolon_no_underscore (file : string) :
  has_char ";" (name_key file) = false
  /\ has_char "_" (name_key file) = false.
Proof.
  rewrite name_key_chars. split.
  - apply has_char_swap_other; [discriminate|].
    apply has_char_swapped. discriminate.
  - apply has_char_swapped. discriminate.
Qed.

(** For a name whose only [.json] is the extension at its end, line 19
    removes just that. *)
Lemma replace_only_extension (file : string) :
  endswith file ".json" = true ->
  contains (strip_extension file) ".json" = false ->
  replace file ".json" "" = strip_extension file.
Proof.
  intros E C. apply endswith_split in E. fold (strip_extension file) in E.
  rewrite E at 1. unfold replace. now apply replace_scan_stem.
Qed.

(** On such names the code and the data model agree on the key. *)
Lemma name_key_described (file : string) :
  endswith file ".json" = true ->
  contains (strip_extension file) ".json" = false ->
  name_key file = described_key file.
Proof.
  intros E C. rewrite name_key_chars, described_key_chars.
  now rewrite replace_only_extension.
Qed.

Lemma name_key_no_json (file : string) :
  endswith file ".json" = true ->
  contains (strip_extension file) ".json" = false ->
  contains (name_key file) ".json" = false.
Proof.
  intros E C. rewrite name_key_chars, replace_only_extension by assumption.
  apply contains_map_chars; [now apply swap_char_fixes|].
  apply contains_map_chars; [now apply swap_char_fixes|]. exact C.
Qed.

End IndexFacts.

(* ================================================================== *)
(** * The index builder: keys and collisions *)

(** C3. The index has one entry per derived key: no key occurs twice, the
    keys are exactly the keys derived from the visited [.json] files, and
    the entry of a key holds the full path of the last visited file that
    derives it. *)
Theorem build_global_index_last_file_wins (data : Fs.tree) :
  let idx := build_global_index data in
  NoDup (PyDict.keys idx)
  /\ (forall k, In k (PyDict.keys idx)
                <-> exists root file,
                      In (root, file) (json_files data) /\ name_key file = k)
  /\ (forall pre root file post,
        json_files data = (pre ++ (root, file) :: post)%list ->
        (forall r f, In (r, f) post -> name_key f <> name_key file) ->
        PyDict.getitem idx (name_key file)
        = Some (PosixPath.join root file)).
Proof.
  intros idx. subst idx. rewrite IndexFacts.build_global_index_assign.
  split; [|split].
  - apply PyDictFacts.NoDup_keys_assign_all. constructor.
  - intros k. rewrite PyDictFacts.keys_assign_all.
    rewrite IndexFacts.map_fst_index_entry, in_map_iff. split.
    + intros [[]|([root file] & E & Hin)]. exists root, file. now split.
    + intros (root & file & Hin & E). right. exists (root, file). now split.
  - intros pre root file post E Hlast. rewrite E, map_app. cbn [map].
    change (index_entry (root, file))
      with (name_key file, PosixPath.join root file).
    apply PyDictFacts.getitem_assign_last.
    rewrite IndexFacts.map_fst_index_entry, in_map_iff.
    intros ([r f] & Ek & Hin). exact (Hlast r f Hin Ek).
Qed.

(** C4 at a name with [.json] inside it: the file passes the test of line
    17, the data model's key keeps the inner [.json], and line 19 removes
    both occurrences. *)
Theorem name_key_removes_inner_extension :
  PyStr.endswith "a.json_b.json" ".json" = true
  /\ described_key "a.json_b.json" = "a.json b"
  /\ name_key "a.json_b.json" = "a b"
  /\ PyDict.keys (build_global_index (Fs.Dir ["a.json_b.json"] [])) = ["a b"].
Proof. repeat split; vm_compute; reflexivity. Qed.

(** C10 fails for [.json]: removing the two occurrences found by the scan
    of [.js.jsonon.json] joins [.js] and [on] into a key that is [.json]. *)
Lemma index_key_can_contain_json :
  let idx := build_global_index (Fs.Dir [".js.jsonon.json"] []) in
  PyDict.keys idx = [".json"]
  /\ exists k, In k (PyDict.keys idx) /\ PyStr.contains k ".json" = true.
Proof.
  split; [vm_compute; reflexivity|].
  exists ".json". split; [vm_compute; now left | vm_compute; reflexivity].
Qed.

(** C10 as the code has it. A key of the index has no [;] and no [_]; it is
    the key of a visited [.json] file, and it has no [.json] when the name
    of that file without its extension has none. *)
Theorem index_keys_characters (data : Fs.tree) (k : string) :
  In k (PyDict.keys (build_global_index data)) ->
  PyStr.has_char ";" k = false
  /\ PyStr.has_char "_" k = false
  /\ exists root file,
       In (root, file) (json_files data)
       /\ PyStr.endswith file ".json" = true
       /\ k = name_key file
       /\ (PyStr.contains (strip_extension file) ".json" = false ->
           PyStr.contains k ".json" = false).
Proof.
  intros Hin. rewrite IndexFacts.build_global_index_assign in Hin.
  apply PyDictFacts.keys_assign_all in Hin as [[]|Hin].
  rewrite IndexFacts.map_fst_index_entry, in_map_iff in Hin.
  destruct Hin as ([root file] & <- & Hin). cbn [snd].
  destruct (IndexFacts.name_key_no_semicolon_no_underscore file) as [A B].
  split; [exact A|]. split; [exact B|].
  exists root, file. pose proof Hin as Hf.
  unfold json_files in Hf. apply filter_In in Hf as [_ Hf]. cbn [snd] in Hf.
  repeat split; try assumption.
  intros C. now apply IndexFacts.name_key_no_json.
Qed.

Lemma index_keys_characters_witness :
  In "fire shield" (PyDict.keys (build_global_index Demo.data))
  /\ PyStr.has_char ";" "fire shield" = false
  /\ PyStr.has_char "_" "fire shield" = false.
Proof.
  assert (H : In "fire shield" (PyDict.keys (build_global_index Demo.data)))
    by (vm_compute; right; left; reflexivity).
  split; [exact H|].
  destruct (index_keys_characters Demo.data "fire shield" H) as (A & B & _).
  split; [exact A | exact B].
Defined.

(* ================================================================== *)
(** * More about the index builder *)

Module IndexMore.
Import PyStr PyStrFacts PyDict PyDictFacts.

Lemma length_setitem_le {V : Type} (d : dict V) k v :
  List.length (setitem d k v) <= S (List.length d).
Proof.
  induction d as [|[k0 v0] d IH]; simpl; [lia|].
  destruct (String.eqb k0 k); simpl; lia.
Qed.

Lemma setitem_not_empty {V : Type} (d : dict V) k v : setitem d k v <> [].
Proof.
  destruct d as [|[k0 v0] d]; simpl; [discriminate|].
  destruct (String.eqb k0 k); discriminate.
Qed.

Lemma length_assign_all {V : Type} (kvs : list (string * V)) : forall d,
  List.length d <= List.length (fold_left assign kvs d)
  /\ List.length (fold_left assign kvs d) <= List.length d + List.length kvs.
Proof.
  induction kvs as [|kv kvs IH]; intros d; simpl; [lia|].
  destruct (IH (assign d kv)) as [A B].
  pose proof (length_setitem_le d (fst kv) (snd kv)) as C.
  assert (D : List.length d <= List.length (assign d kv)).
  { unfold assign. clear. induction d as [|[k0 v0] d IH]; simpl; [lia|].
    destruct (String.eqb k0 (fst kv)); simpl; lia. }
  unfold assign in *. lia.
Qed.

(** A key not yet present goes to the end. *)
Lemma setitem_new {V : Type} (d : dict V) k v :
  ~ In k (keys d) -> setitem d k v = (d ++ [(k, v)])%list.
Proof.
  induction d as [|[k0 v0] d IH]; simpl; intros N; [reflexivity|].
  destruct (String.eqb_spec k0 k) as [E|_]; [exfalso; auto|].
  rewrite IH; [reflexivity|]. intros H. apply N. now right.
Qed.

Lemma assign_all_distinct {V : Type} (kvs : list (string * V)) : forall d,
  NoDup (keys d ++ map fst kvs) ->
  fold_left assign kvs d = (d ++ kvs)%list.
Proof.
  induction kvs as [|[k v] kvs IH]; intros d ND; simpl.
  - now rewrite app_nil_r.
  - unfold assign at 2. cbn [fst snd].
    assert (N : ~ In k (keys d)).
    { intros H. apply NoDup_remove_2 in ND. apply ND.
      apply in_or_app. now left. }
    rewrite (setitem_new d k v N), IH.
    + now rewrite <- app_assoc.
    + unfold keys in *. rewrite map_app, <- app_assoc. exact ND.
Qed.

Lemma getitem_assign_all {V : Type} (kvs : list (string * V)) : forall d k v,
  getitem (fold_left assign kvs d) k = Some v ->
  getitem d k = Some v \/ In (k, v) kvs.
Proof.
  induction kvs as [|[k0 v0] kvs IH]; intros d k v H; simpl in *; [now left|].
  apply IH in H as [H|H]; [|now right; right].
  unfold assign in H. cbn [fst snd] in H.
  destruct (String.eqb_spec k k0) as [->|N].
  - rewrite getitem_setitem_same in H. injection H as ->. right. now left.
  - rewrite getitem_setitem_other in H by exact N. now left.
Qed.

Lemma length_app_string (a b : string) :
  String.length (a ++ b) = String.length a + String.length b.
Proof. induction a as [|x a IH]; simpl; [reflexivity | now rewrite IH]. Qed.

(** [endswith] is kept when text is put in front. *)
Lemma endswith_app (a b suffix : string) :
  endswith b suffix = true -> endswith (a ++ b) suffix = true.
Proof.
  intros E. apply endswith_split in E.
  revert E. generalize (take (String.length b - String.length suffix) b).
  intros front ->. unfold endswith. apply andb_true_intro. split.
  - apply Nat.leb_le. rewrite !length_app_string. lia.
  - apply String.eqb_eq. rewrite <- PosixPathFacts.append_assoc.
    replace (String.length ((a ++ front) ++ suffix) - String.length suffix)
      with (String.length (a ++ front)).
    + apply PosixPathFacts.drop_app.
    + rewrite !length_app_string. lia.
Qed.

Lemma endswith_join (root file suffix : string) :
  endswith file suffix = true ->
  endswith (PosixPath.join root file) suffix = true.
Proof.
  intros E. unfold PosixPath.join.
  destruct (startswith file PosixPath.sep); [exact E|].
  destruct (String.eqb root "" || endswith root PosixPath.sep)%bool.
  - now apply endswith_app.
  - apply endswith_app. now apply endswith_app.
Qed.

(** What an entry of the index is made of. *)
Lemma index_entry_sound (data : Fs.tree) (k path : string) :
  getitem (build_global_index data) k = Some path ->
  endswith path ".json" = true
  /\ exists root file,
       In (root, file) (json_files data)
       /\ k = name_key file
       /\ path = PosixPath.join root file.
Proof.
  rewrite IndexFacts.build_global_index_assign. intros G.
  apply getitem_assign_all in G as [G|G]; [discriminate G|].
  apply in_map_iff in G as ([root file] & E & Hin).
  injection E as <- <-. cbn [fst snd]. split.
  - apply endswith_join.
    unfold json_files in Hin. now apply filter_In in Hin as [_ Hin].
  - exists root, file. now repeat split.
Qed.

End IndexMore.

(** X1. The index has at most one entry per visited [.json] file, and it is
    empty exactly when no visited file name ends in [.json]. *)
Theorem build_global_index_size (data : Fs.tree) :
  List.length (build_global_index data) <= List.length (json_files data)
  /\ (build_global_index data = [] <-> json_files data = []).
Proof.
  rewrite IndexFacts.build_global_index_assign.
  destruct (IndexMore.length_assign_all (map index_entry (json_files data))
              (@PyDict.empty string)) as [_ B].
  rewrite length_map in B. cbn in B. split; [exact B|]. split.
  - destruct (json_files data) as [|rf rfs]; [reflexivity|]. cbn [map fold_left].
    intros E.
    destruct (IndexMore.length_assign_all (map index_entry rfs)
                (PyDict.assign PyDict.empty (index_entry rf))) as [A _].
    rewrite E in A. cbn [List.length] in A.
    pose proof (IndexMore.setitem_not_empty (@PyDict.empty string)
                  (fst (index_entry rf)) (snd (index_entry rf))) as NE.
    unfold PyDict.assign in A.
    destruct (PyDict.setitem PyDict.empty (fst (index_entry rf))
                (snd (index_entry rf))); [now destruct NE | simpl in A; lia].
  - intros ->. reflexivity.
Qed.

(** X2. When the visited [.json] files derive pairwise different keys, the
    index lists them in traversal order: entry [i] is the key and the joined
    path of the [i]-th such file. *)
Theorem build_global_index_distinct_keys (data : Fs.tree) :
  NoDup (map (fun rf => name_key (snd rf)) (json_files data)) ->
  build_global_index data = map index_entry (json_files data).
Proof.
  intros ND. rewrite IndexFacts.build_global_index_assign.
  rewrite IndexMore.assign_all_distinct; [reflexivity|].
  cbn [PyDict.keys PyDict.empty map app].
  now rewrite IndexFacts.map_fst_index_entry.
Qed.

(** X3. Every entry of the index comes from a visited [.json] file: its key
    is the key of that file, its value the joined path of that file, and
    the value ends in [.json]. *)
Theorem build_global_index_entries_sound (data : Fs.tree) (k path : string) :
  PyDict.getitem (build_global_index data) k = Some path ->
  PyStr.endswith path ".json" = true
  /\ exists root file,
       In (root, file) (json_files data)
       /\ k = name_key file
       /\ path = PosixPath.join root file.
Proof. apply IndexMore.index_entry_sound. Qed.

(** X4. For a name whose only [.json] is its extension, line 19 gives the
    stem with every [;] turned into [:] and every [_] into a space, of the
    same length as the stem; a stem with neither character is the key
    itself (['fireball.json' -> 'fireball']). *)
Theorem name_key_of_plain_stem (stem : string) :
  PyStr.contains stem ".json" = false ->
  name_key (stem ++ ".json")
  = map_chars (swap_char "_" " ") (map_chars (swap_char ";" ":") stem)
  /\ String.length (name_key (stem ++ ".json")) = String.length stem
  /\ (PyStr.has_char ";" stem = false -> PyStr.has_char "_" stem = false ->
      name_key (stem ++ ".json") = stem).
Proof.
  intros C.
  assert (E : name_key (stem ++ ".json")
              = map_chars (swap_char "_" " ")
                  (map_chars (swap_char ";" ":") stem)).
  { rewrite IndexFacts.name_key_chars. unfold PyStr.replace.
    now rewrite PyStrFacts.replace_scan_stem. }
  assert (L : forall f s, String.length (map_chars f s) = String.length s).
  { intros f s. induction s as [|c s IH]; simpl; congruence. }
  assert (I : forall a b s, PyStr.has_char a s = false ->
                            map_chars (swap_char a b) s = s).
  { intros a b s. induction s as [|c s IH]; simpl; [reflexivity|].
    intros H. apply orb_false_elim in H as [H1 H2].
    rewrite (IH H2). unfold swap_char. now rewrite H1. }
  split; [exact E|]. split.
  - now rewrite E, !L.
  - intros S U. now rewrite E, (I ";"%char), (I "_"%char).
Qed.

(* ================================================================== *)
(** * The traversal: where the indexed paths lie *)

Module WalkFacts.
Import PyStr PyStrFacts PosixPath PosixPathFacts.

Lemma plain_name_spec (name : string) :
  plain_name name = true <-> name <> "" /\ has_char sep_char name = false.
Proof.
  unfold plain_name. rewrite andb_true_iff, !negb_true_iff.
  now rewrite String.eqb_neq.
Qed.

Lemma tree_induction (P : Fs.tree -> Prop) :
  (forall files subdirs,
      Forall (fun entry => P (snd entry)) subdirs ->
      P (Fs.Dir files subdirs)) ->
  forall t, P t.
Proof.
  intros H. fix IH 1. intros [files subdirs]. apply H.
  induction subdirs as [|[name sub] rest IHrest]; constructor.
  - apply IH.
  - exact IHrest.
Qed.

(** Joining a plain name under the path of a directory appends a separator
    and the name. *)
Lemma join_under_directory (root dir name : string) :
  names_directory root dir -> plain_name name = true ->
  join root name = root ++ sep ++ name.
Proof.
  intros (Pd & front & -> & _) Pn.
  apply plain_name_spec in Pd as [NEd Hd].
  apply plain_name_spec in Pn as [NEn Hn].
  unfold join, startswith.
  destruct (String.prefix sep name) eqn:P.
  - destruct name as [|c name]; [now destruct NEn|].
    unfold sep in P. rewrite prefix_cons in P.
    apply andb_prop in P as [P _]. cbn [has_char] in Hn.
    apply orb_false_elim in Hn as [Hc _].
    unfold char_eqb, sep_char in *. rewrite Ascii.eqb_sym in P.
    congruence.
  - rewrite (endswith_sep_false front dir NEd Hd), orb_false_r.
    destruct (String.eqb_spec (front ++ dir) "") as [E|_]; [|reflexivity].
    destruct front; [|discriminate]. now destruct NEd.
Qed.

Lemma names_directory_join (root dir name : string) :
  names_directory root dir -> plain_name name = true ->
  names_directory (join root name) name.
Proof.
  intros D Pn. rewrite (join_under_directory root dir name D Pn).
  split; [exact Pn|]. exists (root ++ sep).
  split; [now rewrite append_assoc|]. right. eauto.
Qed.

Lemma basename_directory (root dir : string) :
  names_directory root dir -> basename root = dir.
Proof.
  intros (Pd & front & -> & Hfront).
  apply plain_name_spec in Pd as [NEd Hd]. unfold basename.
  destruct Hfront as [->|(front' & ->)].
  - cbn [String.append]. now rewrite (after_last_sep_none dir Hd).
  - rewrite append_assoc, (after_last_sep_app front' dir Hd).
    replace (S (String.length front')) with (String.length (front' ++ sep)).
    + rewrite <- append_assoc. apply drop_app.
    + clear. induction front' as [|x a IH]; simpl; congruence.
Qed.

Lemma dirname_of_file (root dir file : string) :
  names_directory root dir -> plain_name file = true ->
  dirname (join root file) = root.
Proof.
  intros D Pf. rewrite (join_under_directory root dir file D Pf).
  destruct D as (Pd & front & -> & _).
  apply plain_name_spec in Pd as [NEd Hd].
  apply plain_name_spec in Pf as [NEf Hf].
  unfold dirname.
  rewrite (after_last_sep_app (front ++ dir) file Hf).
  assert (T : take (S (String.length (front ++ dir)))
                   ((front ++ dir) ++ sep ++ file)
              = front ++ dir ++ sep).
  { rewrite <- (append_assoc (front ++ dir) sep file).
    replace (S (String.length (front ++ dir)))
      with (String.length ((front ++ dir) ++ sep)).
    - rewrite take_app. apply append_assoc.
    - clear. induction (front ++ dir) as [|x a IH]; simpl; congruence. }
  rewrite T, (all_sep_has_other front dir sep NEd Hd).
  assert (N : String.eqb (front ++ dir ++ sep) "" = false).
  { apply String.eqb_neq. destruct front; [|discriminate].
    destruct dir; [now destruct NEd | discriminate]. }
  rewrite N. cbn [negb andb]. apply (rstrip_sep_dir front dir NEd Hd).
Qed.

(** What [os.walk] reports below a directory path [top]: every root is the
    path of a directory, it is [top] or [top], a separator and more, and
    the file names come from the tree. *)
Lemma walk_roots : forall t top dir,
  names_directory top dir -> well_named t = true ->
  forall root dirs files, In (root, dirs, files) (Fs.walk top t) ->
    (exists d, names_directory root d)
    /\ (root = top \/ exists rest, root = top ++ sep ++ rest)
    /\ forallb plain_name files = true.
Proof.
  induction t as [files0 subdirs IH] using tree_induction.
  intros top dir D W root dirs files Hin.
  cbn [well_named] in W. apply andb_prop in W as [Wf Ws].
  cbn [Fs.walk] in Hin. destruct Hin as [E|Hin].
  - injection E as <- _ <-. split; [eauto|]. split; [now left | exact Wf].
  - apply in_flat_map in Hin as ([name sub] & Hsub & Hin).
    rewrite forallb_forall in Ws. specialize (Ws _ Hsub). cbn in Ws.
    apply andb_prop in Ws as [Pn Wsub].
    rewrite Forall_forall in IH. specialize (IH _ Hsub). cbn [snd] in IH.
    destruct (IH (join top name) name (names_directory_join top dir name D Pn)
                 Wsub root dirs files Hin) as (Hd & Hr & Hf).
    split; [exact Hd|]. split; [|exact Hf]. right.
    rewrite (join_under_directory top dir name D Pn) in Hr.
    destruct Hr as [->|(rest & ->)].
    + eauto.
    + exists (name ++ sep ++ rest). now rewrite !append_assoc.
Qed.

Lemma data_path_names_core : names_directory DATA_PATH "core".
Proof.
  split; [reflexivity|]. exists "/home/cjohannsen/src/pf2ools-data/".
  split; [reflexivity|]. right.
  exists "/home/cjohannsen/src/pf2ools-data". reflexivity.
Qed.

Lemma visited_file_step (data : Fs.tree) (root file : string) :
  In (root, file) (visited_files data) ->
  exists dirs files, In (root, dirs, files) (Fs.walk DATA_PATH data)
                     /\ In file files.
Proof.
  unfold visited_files. intros Hin.
  apply in_flat_map in Hin as ([[r dirs] files] & Hstep & Hin).
  apply in_map_iff in Hin as (f & E & Hf). injection E as -> ->.
  eauto.
Qed.

End WalkFacts.

(** X5. In a tree of plain names every path stored in the index lies below
    the data directory: it is [DATA_PATH], a separator and more. *)
Theorem build_global_index_paths_under_data_path (data : Fs.tree)
    (k path : string) :
  well_named data = true ->
  PyDict.getitem (build_global_index data) k = Some path ->
  exists rest, path = DATA_PATH ++ PosixPath.sep ++ rest.
Proof.
  intros W G.
  apply IndexMore.index_entry_sound in G
    as (_ & root & file & Hin & _ & ->).
  unfold json_files in Hin. apply filter_In in Hin as [Hin _].
  apply WalkFacts.visited_file_step in Hin as (dirs & files & Hstep & Hf).
  destruct (WalkFacts.walk_roots data DATA_PATH "core"
              WalkFacts.data_path_names_core W root dirs files Hstep)
    as ((d & D) & Hr & Pf).
  rewrite forallb_forall in Pf. specialize (Pf _ Hf).
  rewrite (WalkFacts.join_under_directory root d file D Pf).
  destruct Hr as [->|(rest & ->)].
  - eauto.
  - exists (rest ++ PosixPath.sep ++ file).
    now rewrite !PosixPathFacts.append_assoc.
Qed.

(** X6. In a tree of plain names, the category of line 47 computed from the
    path the index builder stores for a visited file is the name of the
    directory [os.walk] reported the file in (the last component of
    [root]), and the directory part of the path is [root] itself. *)
Theorem category_of_visited_file (data : Fs.tree) (root file : string) :
  well_named data = true ->
  In (root, file) (visited_files data) ->
  PosixPath.dirname (PosixPath.join root file) = root
  /\ PosixPath.basename (PosixPath.dirname (PosixPath.join root file))
     = PosixPath.basename root
  /\ plain_name (PosixPath.basename root) = true.
Proof.
  intros W Hin.
  apply WalkFacts.visited_file_step in Hin as (dirs & files & Hstep & Hf).
  destruct (WalkFacts.walk_roots data DATA_PATH "core"
              WalkFacts.data_path_names_core W root dirs files Hstep)
    as ((d & D) & _ & Pf).
  rewrite forallb_forall in Pf. specialize (Pf _ Hf).
  rewrite (WalkFacts.dirname_of_file root d file D Pf).
  rewrite (WalkFacts.basename_directory root d D).
  repeat split. apply D.
Qed.

(* ================================================================== *)
(** * Facts about the query handler *)

Lemma same_world_refl (s : state) : same_world s s.
Proof. split; reflexivity. Qed.

Lemma same_world_trans (s1 s2 s3 : state) :
  same_world s1 s2 -> same_world s2 s3 -> same_world s1 s3.
Proof.
  intros [I12 D12] [I23 D23]. split.
  - now rewrite I23.
  - now rewrite D23.
Qed.

Lemma same_world_sym (s1 s2 : state) : same_world s1 s2 -> same_world s2 s1.
Proof. intros [I D]. split; congruence. Qed.

Lemma prefix_app_same (a b : string) : String.prefix a (a ++ b) = true.
Proof.
  induction a as [|x a IH]; [apply PyStrFacts.prefix_empty|].
  cbn [String.append]. rewrite PyStrFacts.prefix_cons, IH.
  unfold PyStr.char_eqb. now rewrite Ascii.eqb_refl.
Qed.

Lemma prefix_app_more (h a b : string) :
  String.prefix h a = true -> String.prefix h (a ++ b) = true.
Proof.
  revert a. induction h as [|x h IH]; intros a H;
    [apply PyStrFacts.prefix_empty|].
  destruct a as [|y a]; [discriminate H|].
  cbn [String.append]. rewrite PyStrFacts.prefix_cons in *.
  apply andb_prop in H as [H1 H2]. now rewrite H1, (IH a H2).
Qed.

Lemma opens_app (evs evs' : list event) :
  opens (evs ++ evs') = opens evs + opens evs'.
Proof.
  induction evs as [|[k|p] evs IH]; simpl; [reflexivity | exact IH|].
  now rewrite IH.
Qed.

Section ServerFacts.

Variable title : string -> string.
Variable json_value : Type.
Variable json_load : string -> outcome json_value.
Variable json_dumps : json_value -> nat -> string.
Variable extract : string -> list string -> nat -> list fuzz_match.

Local Abbreviation Retrieve := (retrieve title json_value json_load json_dumps).
Local Abbreviation RetrieveAll := (retrieve_all title json_value json_load json_dumps).
Local Abbreviation Search := (pf2e_search title json_value json_load json_dumps extract).
Local Abbreviation Block := (block title json_value json_dumps).
Local Abbreviation Loads := (loads json_value json_load).
Local Abbreviation Stale := (stale json_value json_load).

(** *** One pass of the loop body *)

(** The pass, step by step, with the state written out. *)
Lemma retrieve_unfold (m : fuzz_match) (s : state) :
  Retrieve m s =
  match extra m with
  | [_] =>
      let s1 := mkState (INDEX s) (disk s)
                        (log s ++ [IndexLookup (choice m)]) in
      match PyDict.getitem (INDEX s) (choice m) with
      | None => (Raised (KeyError (choice m)), s1)
      | Some path =>
          let s2 := mkState (INDEX s) (disk s)
                            (log s1 ++ [FileOpen path]) in
          match disk s path with
          | Raised e => (Raised e, s2)
          | Returned text =>
              match json_load text with
              | Raised e => (Raised e, s2)
              | Returned data =>
                  (Returned
                     (Block (choice m)
                        (PosixPath.basename (PosixPath.dirname path)) data),
                   s2)
              end
          end
      end
  | rest => (Raised (ValueError_unpack (2 + List.length rest)), s)
  end.
Proof.
  cbv beta iota zeta delta [retrieve unpack3 index_getitem open_read call
                            bind tell ret raise INDEX disk log].
  destruct (extra m) as [|x [|y rest]]; try reflexivity.
  destruct s as [idx dsk lg]; cbv beta iota.
  destruct (PyDict.getitem idx (choice m)) as [path|]; try reflexivity.
  all: destruct (dsk path) as [text|e]; try reflexivity.
  all: destruct (json_load text); reflexivity.
Qed.

Lemma retrieve_effect (m : fuzz_match) (s : state) :
  same_world s (snd (Retrieve m s))
  /\ exists evs, log (snd (Retrieve m s)) = (log s ++ evs)%list
                 /\ events_of s m evs.
Proof.
  rewrite retrieve_unfold. unfold events_of.
  assert (W0 : forall r : outcome string,
             same_world s (snd (r, s))
             /\ exists evs, log (snd (r, s)) = (log s ++ evs)%list
                 /\ forall e, In e evs ->
                      e = IndexLookup (choice m)
                      \/ exists path,
                           PyDict.getitem (INDEX s) (choice m) = Some path
                           /\ e = FileOpen path).
  { intros r. split; [apply same_world_refl|]. exists []. simpl.
    rewrite app_nil_r. split; [reflexivity | intros e []]. }
  destruct (extra m) as [|x [|y rest]]; try apply W0.
  destruct (PyDict.getitem (INDEX s) (choice m)) as [path|] eqn:G.
  - assert (W : forall r : outcome string,
               let s2 := mkState (INDEX s) (disk s)
                   ((log s ++ [IndexLookup (choice m)]) ++ [FileOpen path]) in
               same_world s (snd (r, s2))
               /\ exists evs, log (snd (r, s2)) = (log s ++ evs)%list
                   /\ forall e, In e evs ->
                        e = IndexLookup (choice m)
                        \/ exists p, Some path = Some p /\ e = FileOpen p).
    { intros r. split; [split; reflexivity|].
      exists [IndexLookup (choice m); FileOpen path]. simpl.
      split; [now rewrite <- app_assoc|].
      intros e [E|[E|[]]]; subst; [now left|right; eauto]. }
    cbv zeta in *. simpl log.
    destruct (disk s path) as [text|e0]; [|apply W].
    destruct (json_load text); apply W.
  - cbv zeta. split; [split; reflexivity|].
    exists [IndexLookup (choice m)]. simpl.
    split; [reflexivity|]. intros e [E|[]]; subst; now left.
Qed.

Lemma retrieve_same_world (m : fuzz_match) (s : state) :
  same_world s (snd (Retrieve m s)).
Proof. apply retrieve_effect. Qed.

(** The outcome of a pass depends on the index and the files only. *)
Lemma retrieve_outcome_ext (m : fuzz_match) (s1 s2 : state) :
  same_world s1 s2 -> fst (Retrieve m s1) = fst (Retrieve m s2).
Proof.
  intros [I D]. rewrite !retrieve_unfold, I, D. cbv zeta.
  destruct (extra m) as [|x [|y rest]]; try reflexivity.
  destruct (PyDict.getitem (INDEX s1) (choice m)) as [path|];
    [|reflexivity].
  destruct (disk s1 path) as [text|e]; [|reflexivity].
  destruct (json_load text); reflexivity.
Qed.

Lemma retrieve_loads (m : fuzz_match) (s : state) path data :
  Loads s m path data ->
  fst (Retrieve m s)
  = Returned (Block (choice m)
                    (PosixPath.basename (PosixPath.dirname path)) data).
Proof.
  intros (A & G & text & D & J). rewrite retrieve_unfold.
  destruct (extra m) as [|x [|y rest]]; simpl in A; try discriminate.
  rewrite G. cbv zeta. rewrite D, J. reflexivity.
Qed.

Lemma retrieve_stale (m : fuzz_match) (s : state) :
  Stale s m -> exists e, fst (Retrieve m s) = Raised e.
Proof.
  intros (path & G & F). rewrite retrieve_unfold.
  destruct (extra m) as [|x [|y rest]]; simpl; eauto.
  rewrite G.
  destruct F as [(e & D) | (text & e & D & J)]; rewrite D; simpl; eauto.
  rewrite J. simpl. eauto.
Qed.

(** A pass returns a block exactly when its match loads. *)
Lemma retrieve_returns_iff (m : fuzz_match) (s : state) :
  (exists b, fst (Retrieve m s) = Returned b)
  <-> exists path data, Loads s m path data.
Proof.
  split.
  - intros (b & R). rewrite retrieve_unfold in R. unfold loads.
    destruct (extra m) as [|x [|y rest]]; try discriminate R.
    destruct (PyDict.getitem (INDEX s) (choice m)) as [path|];
      [|discriminate R].
    cbv zeta in R.
    destruct (disk s path) as [text|e] eqn:D; [|discriminate R].
    destruct (json_load text) as [data|e] eqn:J; [|discriminate R].
    exists path, data. repeat split. eauto.
  - intros (path & data & L). eexists. apply (retrieve_loads m s path data L).
Qed.

Lemma retrieve_block_header (m : fuzz_match) (s : state) b :
  fst (Retrieve m s) = Returned b -> String.prefix "--- MATCH: " b = true.
Proof.
  intros R. rewrite retrieve_unfold in R.
  destruct (extra m) as [|x [|y rest]]; try discriminate R.
  destruct (PyDict.getitem (INDEX s) (choice m)) as [path|];
    [|discriminate R].
  cbv zeta in R.
  destruct (disk s path) as [text|e]; [|discriminate R].
  destruct (json_load text) as [data|e]; [|discriminate R].
  cbn [fst] in R. injection R as <-. unfold block. apply prefix_app_same.
Qed.

Lemma retrieve_opens (m : fuzz_match) (s : state) :
  opens (log (snd (Retrieve m s))) <= S (opens (log s)).
Proof.
  rewrite retrieve_unfold.
  destruct (extra m) as [|x [|y rest]]; cbn [snd]; try lia.
  destruct (PyDict.getitem (INDEX s) (choice m)) as [path|]; cbv zeta.
  - assert (E : forall r : outcome string,
               opens (log (snd (r, mkState (INDEX s) (disk s)
                 (log (mkState (INDEX s) (disk s)
                         (log s ++ [IndexLookup (choice m)]))
                  ++ [FileOpen path]))))
               <= S (opens (log s))).
    { intros r. cbn [snd log]. rewrite !opens_app. simpl. lia. }
    destruct (disk s path) as [text|e]; [|apply E].
    destruct (json_load text); apply E.
  - cbn [snd log]. rewrite opens_app. simpl. lia.
Qed.


Lemma loads_same_world (s s' : state) m path data :
  same_world s s' -> Loads s m path data -> Loads s' m path data.
Proof.
  intros [I D] (A & G & text & F & J). unfold loads.
  rewrite I, D. eauto.
Qed.

Lemma stale_same_world (s s' : state) m :
  same_world s s' -> Stale s m -> Stale s' m.
Proof.
  intros [I D] (path & G & F). exists path. rewrite I, D. auto.
Qed.

Lemma returns_same_world (m : fuzz_match) (s s' : state) :
  same_world s s' ->
  (exists b, fst (Retrieve m s) = Returned b) ->
  exists b, fst (Retrieve m s') = Returned b.
Proof.
  intros W (b & R). exists b. now rewrite <- (retrieve_outcome_ext m s s' W).
Qed.

(** *** The loop *)

Lemma retrieve_all_cons (m : fuzz_match) ms results (s : state) :
  RetrieveAll (m :: ms) results s =
  match Retrieve m s with
  | (Returned b, s') => RetrieveAll ms (results ++ [b])%list s'
  | (Raised e, s') => (Raised e, s')
  end.
Proof. reflexivity. Qed.

Lemma retrieve_all_same_world ms : forall results s,
  same_world s (snd (RetrieveAll ms results s)).
Proof.
  induction ms as [|m ms IH]; intros results s.
  - apply same_world_refl.
  - rewrite retrieve_all_cons.
    pose proof (retrieve_same_world m s) as W.
    destruct (Retrieve m s) as [[b|e] s']; simpl in W; [|exact W].
    eapply same_world_trans; [exact W | apply IH].
Qed.

Lemma retrieve_all_outcome_ext ms : forall results s1 s2,
  same_world s1 s2 ->
  fst (RetrieveAll ms results s1) = fst (RetrieveAll ms results s2).
Proof.
  induction ms as [|m ms IH]; intros results s1 s2 W; [reflexivity|].
  rewrite !retrieve_all_cons.
  pose proof (retrieve_outcome_ext m s1 s2 W) as E.
  pose proof (retrieve_same_world m s1) as W1.
  pose proof (retrieve_same_world m s2) as W2.
  destruct (Retrieve m s1) as [[b1|e1] t1], (Retrieve m s2) as [[b2|e2] t2];
    simpl in *; try discriminate; [|now injection E as ->].
  injection E as ->. apply IH.
  eapply same_world_trans; [|exact W2].
  eapply same_world_trans; [apply same_world_sym; exact W1 | exact W].
Qed.


(** A stale match anywhere in the list makes the loop raise. *)
Lemma retrieve_all_stale ms : forall m results s,
  In m ms -> Stale s m ->
  exists e, fst (RetrieveAll ms results s) = Raised e.
Proof.
  induction ms as [|m0 ms IH]; intros m results s Hin St; [destruct Hin|].
  rewrite retrieve_all_cons.
  pose proof (retrieve_same_world m0 s) as W.
  destruct Hin as [->|Hin].
  - destruct (retrieve_stale m s St) as (e & R).
    destruct (Retrieve m s) as [[b|e'] s']; simpl in R; [discriminate|].
    exists e'. reflexivity.
  - destruct (Retrieve m0 s) as [[b|e'] s']; simpl in W.
    + apply (IH m); [exact Hin|]. eapply stale_same_world; eauto.
    + exists e'. reflexivity.
Qed.

(** The loop raises [e] exactly when some match raises [e] and every match
    before it returns a block. *)
Lemma retrieve_all_raises_iff ms : forall results s e,
  fst (RetrieveAll ms results s) = Raised e
  <-> exists pre m post,
        ms = (pre ++ m :: post)%list
        /\ Forall (fun m' => exists b, fst (Retrieve m' s) = Returned b) pre
        /\ fst (Retrieve m s) = Raised e.
Proof.
  induction ms as [|m0 ms IH]; intros results s e.
  - split; [discriminate|]. intros (pre & m & post & E & _).
    now destruct pre.
  - rewrite retrieve_all_cons.
    pose proof (retrieve_same_world m0 s) as W.
    destruct (Retrieve m0 s) as [[b|e0] s'] eqn:R0; cbn [snd] in W.
    + rewrite IH. split.
      * intros (pre & m & post & -> & F & R).
        exists (m0 :: pre), m, post. split; [reflexivity|]. split.
        -- constructor; [exists b; now rewrite R0|].
           eapply Forall_impl; [|exact F]. intros m'.
           apply returns_same_world. now apply same_world_sym.
        -- now rewrite (retrieve_outcome_ext m s s' W).
      * intros (pre & m & post & E & F & R).
        destruct pre as [|m1 pre]; cbn [app] in E; injection E as <- ->.
        -- rewrite R0 in R. discriminate R.
        -- inversion F as [|? ? _ F']; subst.
           exists pre, m, post. split; [reflexivity|]. split.
           ++ eapply Forall_impl; [|exact F']. intros m'.
              now apply returns_same_world.
           ++ now rewrite <- (retrieve_outcome_ext m s s' W).
    + cbn [fst]. split.
      * intros E. injection E as ->. exists [], m0, ms.
        split; [reflexivity|]. split; [constructor | now rewrite R0].
      * intros (pre & m & post & E & F & R).
        destruct pre as [|m1 pre]; cbn [app] in E; injection E as <- ->.
        -- rewrite R0 in R. cbn [fst] in R. now injection R as ->.
        -- inversion F as [|? ? (b & Rb) _]; subst.
           rewrite R0 in Rb. discriminate Rb.
Qed.

(** The loop returns exactly when every match loads. *)
Lemma retrieve_all_returns_iff ms : forall results s,
  (exists r, fst (RetrieveAll ms results s) = Returned r)
  <-> Forall (fun m => exists path data, Loads s m path data) ms.
Proof.
  induction ms as [|m0 ms IH]; intros results s.
  - split; [constructor | intros _; now exists results].
  - rewrite retrieve_all_cons.
    pose proof (retrieve_same_world m0 s) as W.
    pose proof (retrieve_returns_iff m0 s) as RI.
    destruct (Retrieve m0 s) as [[b|e0] s'] eqn:R0; cbn [snd fst] in *.
    + rewrite IH. split.
      * intros F. constructor; [apply RI; eauto|].
        eapply Forall_impl; [|exact F]. intros m' (p & d & L).
        exists p, d. eapply loads_same_world; [|exact L].
        now apply same_world_sym.
      * intros F. inversion F as [|? ? _ F']; subst.
        eapply Forall_impl; [|exact F']. intros m' (p & d & L).
        exists p, d. eapply loads_same_world; [exact W | exact L].
    + split; [intros (r & E); discriminate E|].
      intros F. inversion F as [|? ? L0 _]; subst.
      apply RI in L0 as (b & E). discriminate E.
Qed.

Lemma retrieve_all_blocks ms : forall results s r,
  fst (RetrieveAll ms results s) = Returned r ->
  exists blocks,
    r = (results ++ blocks)%list
    /\ List.length blocks = List.length ms
    /\ Forall (fun b => String.prefix "--- MATCH: " b = true) blocks.
Proof.
  induction ms as [|m0 ms IH]; intros results s r R.
  - injection R as <-. exists []. rewrite app_nil_r. repeat split.
    constructor.
  - rewrite retrieve_all_cons in R.
    pose proof (retrieve_block_header m0 s) as H.
    destruct (Retrieve m0 s) as [[b|e0] s']; [|discriminate R].
    apply IH in R as (blocks & -> & L & F).
    exists (b :: blocks). split; [now rewrite <- app_assoc|].
    split; [simpl; now rewrite L|]. constructor; [now apply H | exact F].
Qed.

Lemma retrieve_all_opens ms : forall results s,
  opens (log (snd (RetrieveAll ms results s)))
  <= opens (log s) + List.length ms.
Proof.
  induction ms as [|m ms IH]; intros results s; [simpl; lia|].
  rewrite retrieve_all_cons.
  pose proof (retrieve_opens m s) as O.
  destruct (Retrieve m s) as [[b|e] s']; cbn [snd] in *.
  - specialize (IH (results ++ [b])%list s'). simpl. lia.
  - simpl. lia.
Qed.


(** *** The handler *)

Lemma search_no_good (query : string) (s : state) :
  good_matches (extract query (PyDict.keys (INDEX s)) 3) = [] ->
  Search query s
  = (Returned ("No rules found matching '" ++ query ++ "'."), s).
Proof. intros E. unfold pf2e_search. now rewrite E. Qed.

Lemma search_some_good (query : string) (s : state) :
  good_matches (extract query (PyDict.keys (INDEX s)) 3) <> [] ->
  Search query s
  = match RetrieveAll (good_matches
                         (extract query (PyDict.keys (INDEX s)) 3)) [] s with
    | (Returned results, s') =>
        (Returned (PyStr.join (newline ++ newline) results), s')
    | (Raised e, s') => (Raised e, s')
    end.
Proof.
  intros NE. unfold pf2e_search.
  destruct (good_matches (extract query (PyDict.keys (INDEX s)) 3))
    as [|m ms]; [now destruct NE|].
  unfold bind, ret.
  destruct (RetrieveAll (m :: ms) [] s) as [[results|e] s']; reflexivity.
Qed.

Lemma good_matches_In (matches : list fuzz_match) (m : fuzz_match) :
  In m (good_matches matches) <-> In m matches /\ (60 < score m)%Z.
Proof.
  unfold good_matches. rewrite filter_In. now rewrite Z.ltb_lt.
Qed.



Lemma search_same_world (query : string) (s : state) :
  same_world s (snd (Search query s)).
Proof.
  destruct (good_matches (extract query (PyDict.keys (INDEX s)) 3))
    as [|m ms] eqn:G.
  - rewrite search_no_good by exact G. apply same_world_refl.
  - rewrite search_some_good by (rewrite G; discriminate). rewrite G.
    pose proof (retrieve_all_same_world (m :: ms) [] s) as W.
    destruct (RetrieveAll (m :: ms) [] s) as [[results|e] s']; exact W.
Qed.

Lemma search_outcome_ext (query : string) (s1 s2 : state) :
  same_world s1 s2 -> fst (Search query s1) = fst (Search query s2).
Proof.
  intros W. pose proof W as [I D].
  destruct (good_matches (extract query (PyDict.keys (INDEX s1)) 3))
    as [|m ms] eqn:G.
  - rewrite (search_no_good query s1) by exact G.
    rewrite (search_no_good query s2) by (now rewrite I). reflexivity.
  - rewrite (search_some_good query s1) by (rewrite G; discriminate).
    rewrite (search_some_good query s2) by (rewrite I, G; discriminate).
    rewrite I, G.
    pose proof (retrieve_all_outcome_ext (m :: ms) [] s1 s2 W) as E.
    destruct (RetrieveAll (m :: ms) [] s1) as [[r1|e1] t1],
             (RetrieveAll (m :: ms) [] s2) as [[r2|e2] t2];
      simpl in E; try discriminate; now injection E as ->.
Qed.


Lemma search_stale (query : string) (s : state) m :
  In m (good_matches (extract query (PyDict.keys (INDEX s)) 3)) ->
  Stale s m ->
  exists e, fst (Search query s) = Raised e.
Proof.
  intros Hin St.
  rewrite search_some_good by (intros E; rewrite E in Hin; destruct Hin).
  destruct (retrieve_all_stale _ m [] s Hin St) as (e & R).
  destruct (RetrieveAll _ [] s) as [[r|e'] s']; simpl in R;
    [discriminate|]. exists e'. reflexivity.
Qed.

Lemma search_returns_iff (query : string) (s : state) :
  (exists text, fst (Search query s) = Returned text)
  <-> Forall (fun m => exists path data, Loads s m path data)
             (good_matches (extract query (PyDict.keys (INDEX s)) 3)).
Proof.
  destruct (good_matches (extract query (PyDict.keys (INDEX s)) 3))
    as [|m ms] eqn:G.
  - rewrite search_no_good by exact G. split; [constructor|].
    intros _. eexists. reflexivity.
  - rewrite search_some_good by (rewrite G; discriminate). rewrite G.
    rewrite <- (retrieve_all_returns_iff (m :: ms) [] s).
    destruct (RetrieveAll (m :: ms) [] s) as [[r|e] s']; cbn [fst].
    + split; intros _; eexists; reflexivity.
    + split; intros (x & E); discriminate E.
Qed.

Lemma search_raises_iff (query : string) (s : state) (e : exn) :
  fst (Search query s) = Raised e
  <-> exists pre m post,
        good_matches (extract query (PyDict.keys (INDEX s)) 3)
          = (pre ++ m :: post)%list
        /\ Forall (fun m' => exists b, fst (Retrieve m' s) = Returned b) pre
        /\ fst (Retrieve m s) = Raised e.
Proof.
  destruct (good_matches (extract query (PyDict.keys (INDEX s)) 3))
    as [|m ms] eqn:G.
  - rewrite search_no_good by exact G. split; [discriminate|].
    intros (pre & m & post & E & _). now destruct pre.
  - rewrite search_some_good by (rewrite G; discriminate). rewrite G.
    rewrite <- (retrieve_all_raises_iff (m :: ms) [] s e).
    destruct (RetrieveAll (m :: ms) [] s) as [[r|e'] s']; cbn [fst].
    + split; discriminate.
    + split; intros E; injection E as ->; reflexivity.
Qed.

Lemma search_output_shape (query : string) (s : state) (text : string) :
  fst (Search query s) = Returned text ->
  (good_matches (extract query (PyDict.keys (INDEX s)) 3) = []
   /\ text = "No rules found matching '" ++ query ++ "'.")
  \/ (good_matches (extract query (PyDict.keys (INDEX s)) 3) <> []
      /\ String.prefix "--- MATCH: " text = true).
Proof.
  destruct (good_matches (extract query (PyDict.keys (INDEX s)) 3))
    as [|m ms] eqn:G.
  - rewrite search_no_good by exact G. intros E. injection E as <-. now left.
  - rewrite search_some_good by (rewrite G; discriminate). rewrite G.
    intros R. right. split; [discriminate|].
    pose proof (retrieve_all_blocks (m :: ms) [] s) as B.
    destruct (RetrieveAll (m :: ms) [] s) as [[r|e] s']; [|discriminate R].
    cbn [fst] in *. injection R as <-.
    destruct (B r eq_refl) as (blocks & -> & L & F). cbn [app].
    destruct blocks as [|b bs]; [discriminate L|].
    inversion F as [|? ? Hb _]; subst. unfold PyStr.join.
    destruct bs as [|b' bs]; cbn [String.concat]; [exact Hb|].
    now apply prefix_app_more.
Qed.



(** C2. When none of the candidates the scorer returns has a score above
    60, the handler returns the no-results message that quotes the query
    and leaves the state as it was: the log gains no index look-up and no
    file open. *)
Theorem pf2e_search_no_results (query : string) (s : state) :
  (forall m, In m (extract query (PyDict.keys (INDEX s)) 3) ->
             (score m <= 60)%Z) ->
  Search query s
  = (Returned ("No rules found matching '" ++ query ++ "'."), s)
  /\ log (snd (Search query s)) = log s.
Proof.
  intros H.
  assert (E : good_matches (extract query (PyDict.keys (INDEX s)) 3) = []).
  { destruct (good_matches (extract query (PyDict.keys (INDEX s)) 3))
      as [|m ms] eqn:G; [reflexivity|].
    assert (Hin : In m (good_matches
                          (extract query (PyDict.keys (INDEX s)) 3)))
      by (rewrite G; now left).
    apply good_matches_In in Hin as [Hin Hlt]. apply H in Hin. lia. }
  rewrite search_no_good by exact E. split; reflexivity.
Qed.

(** C5 as the code has it. When the file of a kept candidate has been
    deleted, the query returns no result: it ends in an exception that
    nothing handles, no text reaches the caller, and the index and the
    files are as before. *)
Theorem pf2e_search_deleted_file_no_report (query : string) (s : state)
    m path :
  In m (good_matches (extract query (PyDict.keys (INDEX s)) 3)) ->
  PyDict.getitem (INDEX s) (choice m) = Some path ->
  disk s path = Raised (FileNotFoundError path) ->
  (exists e, fst (Search query s) = Raised e)
  /\ (forall text, fst (Search query s) <> Returned text)
  /\ same_world s (snd (Search query s)).
Proof.
  intros Hin G D.
  assert (R : exists e, fst (Search query s) = Raised e).
  { apply (search_stale query s m Hin). exists path.
    split; [exact G|]. left. eauto. }
  split; [exact R|]. split; [|apply search_same_world].
  destruct R as (e & R). rewrite R. discriminate.
Qed.

(** C6. When the file of some kept candidate is gone or its text is
    malformed, the whole query ends in an exception: no string is
    returned, not even the blocks of the candidates that do load. *)
Theorem pf2e_search_stale_aborts (query : string) (s : state) m :
  In m (good_matches (extract query (PyDict.keys (INDEX s)) 3)) ->
  Stale s m ->
  (exists e, fst (Search query s) = Raised e)
  /\ (forall text, fst (Search query s) <> Returned text).
Proof.
  intros Hin St.
  assert (R : exists e, fst (Search query s) = Raised e).
  { rewrite search_some_good by (intros E; rewrite E in Hin; destruct Hin).
    destruct (retrieve_all_stale _ m [] s Hin St) as (e & R).
    destruct (RetrieveAll _ [] s) as [[r|e'] s']; simpl in R;
      [discriminate|]. exists e'. reflexivity. }
  split; [exact R|]. destruct R as (e & R). rewrite R. discriminate.
Qed.

(** C7. Two invocations with the same query on states that agree on the
    index and on the files return the same outcome, whatever was logged
    before, and each leaves the index and the files as it found them. *)
Theorem pf2e_search_deterministic_stateless (query : string)
    (s1 s2 : state) :
  same_world s1 s2 ->
  fst (Search query s1) = fst (Search query s2)
  /\ same_world s1 (snd (Search query s1))
  /\ same_world s2 (snd (Search query s2)).
Proof.
  intros W. split; [now apply search_outcome_ext|].
  split; apply search_same_world.
Qed.

(** C9. When the scorer gives every candidate the score 0 for a blank
    query (thefuzz: a query reduced to the empty string scores 0 in all
    comparisons), the handler answers an empty or all-white-space query
    with the no-results message and touches nothing. *)
Theorem pf2e_search_blank_query (query : string) (s : state) :
  (forall q choices limit m,
      PyStr.all_space q = true ->
      In m (extract q choices limit) -> score m = 0%Z) ->
  PyStr.all_space query = true ->
  Search query s
  = (Returned ("No rules found matching '" ++ query ++ "'."), s).
Proof.
  intros Hblank Hq. apply search_no_good.
  destruct (good_matches (extract query (PyDict.keys (INDEX s)) 3))
    as [|m ms] eqn:G; [reflexivity|].
  assert (Hin : In m (good_matches
                        (extract query (PyDict.keys (INDEX s)) 3)))
    by (rewrite G; now left).
  apply good_matches_In in Hin as [Hin Hlt].
  rewrite (Hblank query _ _ m Hq Hin) in Hlt. lia.
Qed.

(** X7. A query returns a string exactly when every kept candidate loads
    (its tuple has three items, its name is a key of the index, its file is
    there and parses); with no kept candidate that is always so. *)
Theorem pf2e_search_returns_iff (query : string) (s : state) :
  (exists text, fst (Search query s) = Returned text)
  <-> Forall (fun m => exists path data, Loads s m path data)
             (good_matches (extract query (PyDict.keys (INDEX s)) 3)).
Proof. apply search_returns_iff. Qed.

(** X8. A query raises [e] exactly when some kept candidate makes the loop
    body raise [e] and the body returns a block for every kept candidate
    ranked before it: the first failure decides, later candidates are not
    looked at. *)
Theorem pf2e_search_raises_first_failure (query : string) (s : state)
    (e : exn) :
  fst (Search query s) = Raised e
  <-> exists pre m post,
        good_matches (extract query (PyDict.keys (INDEX s)) 3)
          = (pre ++ m :: post)%list
        /\ Forall (fun m' => exists b, fst (Retrieve m' s) = Returned b) pre
        /\ fst (Retrieve m s) = Raised e.
Proof. apply search_raises_iff. Qed.

(** X10. With a scorer that returns 2-tuples (what thefuzz documents for a
    plain collection of choices such as [INDEX.keys()]), every query that
    keeps a candidate raises the unpacking error of line 42 before any
    index look-up or file open: the state is untouched. *)
Theorem pf2e_search_pairs_raise (query : string) (s : state) :
  (forall m, In m (extract query (PyDict.keys (INDEX s)) 3) -> extra m = []) ->
  good_matches (extract query (PyDict.keys (INDEX s)) 3) <> [] ->
  Search query s = (Raised (ValueError_unpack 2), s).
Proof.
  intros P NE. rewrite search_some_good by exact NE.
  destruct (good_matches (extract query (PyDict.keys (INDEX s)) 3))
    as [|m ms] eqn:G; [now destruct NE|].
  assert (E : extra m = []).
  { apply P.
    apply (good_matches_In (extract query (PyDict.keys (INDEX s)) 3) m).
    rewrite G. now left. }
  rewrite retrieve_all_cons, retrieve_unfold, E. reflexivity.
Qed.

(** X11. What a query can return: the no-results message when no candidate
    is kept, and otherwise a text that begins with the header of the first
    block. *)
Theorem pf2e_search_output_shape (query : string) (s : state) (text : string) :
  fst (Search query s) = Returned text ->
  (good_matches (extract query (PyDict.keys (INDEX s)) 3) = []
   /\ text = "No rules found matching '" ++ query ++ "'.")
  \/ (good_matches (extract query (PyDict.keys (INDEX s)) 3) <> []
      /\ String.prefix "--- MATCH: " text = true).
Proof. apply search_output_shape. Qed.

(** X13. A query opens at most one file per candidate the scorer returned:
    at most three when the scorer honours the limit it is given. *)
Theorem pf2e_search_opens_bounded (query : string) (s : state) :
  opens (log (snd (Search query s)))
  <= opens (log s)
     + List.length (extract query (PyDict.keys (INDEX s)) 3).
Proof.
  assert (K : List.length
                (good_matches (extract query (PyDict.keys (INDEX s)) 3))
              <= List.length (extract query (PyDict.keys (INDEX s)) 3))
    by apply filter_length_le.
  destruct (good_matches (extract query (PyDict.keys (INDEX s)) 3))
    as [|m ms] eqn:G.
  - rewrite search_no_good by exact G. cbn. lia.
  - rewrite search_some_good by (rewrite G; discriminate). rewrite G.
    pose proof (retrieve_all_opens (m :: ms) [] s) as O.
    destruct (RetrieveAll (m :: ms) [] s) as [[r|e] s']; cbn [snd] in *; lia.
Qed.

End ServerFacts.

(* ================================================================== *)
(** * The handler on the small instance *)

Module DemoFacts.

Lemma insert_ranked_scores (P : Z -> Prop) (m : fuzz_match) ms :
  P (score m) -> Forall (fun m' => P (score m')) ms ->
  Forall (fun m' => P (score m')) (Demo.insert_ranked m ms).
Proof.
  intros Hm. induction ms as [|m' ms IH]; intros F; simpl.
  - now constructor.
  - inversion F; subst. destruct (score m' <? score m)%Z.
    + now constructor.
    + constructor; [assumption | now apply IH].
Qed.

Lemma In_firstn {A : Type} (n : nat) (l : list A) (x : A) :
  In x (firstn n l) -> In x l.
Proof.
  intros H. rewrite <- (firstn_skipn n l). apply in_or_app. now left.
Qed.

(** The stand-in gives 0 to every choice for a blank query. *)
Lemma extract_blank (q : string) (choices : list string) (limit : nat) m :
  PyStr.all_space q = true ->
  In m (Demo.extract q choices limit) -> score m = 0%Z.
Proof.
  intros Hq Hin. unfold Demo.extract in Hin. apply In_firstn in Hin.
  revert m Hin. apply Forall_forall.
  induction choices as [|c choices IH]; simpl; [constructor|].
  apply (insert_ranked_scores (fun z => z = 0%Z)); [|exact IH].
  simpl. unfold Demo.rate. now rewrite Hq.
Qed.

Lemma fire_kept :
  good_matches (Demo.extract "fire" (PyDict.keys (INDEX Demo.after_delete)) 3)
  = [mkMatch "fire shield" 75 []; mkMatch "fireball" 75 []].
Proof. vm_compute. reflexivity. Qed.

End DemoFacts.

Lemma pf2e_search_no_results_witness :
  Demo.search "fi" Demo.started
  = (Returned "No rules found matching 'fi'.", Demo.started)
  /\ log (snd (Demo.search "fi" Demo.started)) = [].
Proof.
  apply (pf2e_search_no_results Demo.title Demo.json_value Demo.json_load
           Demo.json_dumps Demo.extract "fi" Demo.started).
  intros m Hin. vm_compute in Hin.
  destruct Hin as [<-|[<-|[<-|[]]]]; vm_compute; discriminate.
Defined.

(** C5 fails: [fireball.json] is deleted after the index is built, the key
    [fireball] is a kept candidate of the query, and the query ends in an
    exception instead of returning a report. *)
Lemma pf2e_search_deleted_file_crashes :
  PyDict.getitem (INDEX Demo.after_delete) "fireball" = Some Demo.fireball_path
  /\ disk Demo.started Demo.fireball_path = Returned "3"
  /\ disk Demo.after_delete Demo.fireball_path
     = Raised (FileNotFoundError Demo.fireball_path)
  /\ In "fireball"
        (map choice
           (good_matches
              (Demo.extract "fireball"
                 (PyDict.keys (INDEX Demo.after_delete)) 3)))
  /\ fst (Demo.search "fireball" Demo.after_delete)
     = Raised (ValueError_unpack 2)
  /\ ~ exists text, fst (Demo.search "fireball" Demo.after_delete)
                    = Returned text.
Proof.
  repeat split; try (vm_compute; reflexivity).
  - vm_compute. now left.
  - intros (text & E). vm_compute in E. discriminate.
Qed.

Lemma pf2e_search_deleted_file_no_report_witness :
  (exists e, fst (Demo.search "fire" Demo.after_delete) = Raised e)
  /\ (forall text, fst (Demo.search "fire" Demo.after_delete)
                   <> Returned text)
  /\ same_world Demo.after_delete (snd (Demo.search "fire" Demo.after_delete)).
Proof.
  apply (pf2e_search_deleted_file_no_report Demo.title Demo.json_value
           Demo.json_load Demo.json_dumps Demo.extract "fire"
           Demo.after_delete (mkMatch "fireball" 75 []) Demo.fireball_path).
  - rewrite DemoFacts.fire_kept. right. left. reflexivity.
  - vm_compute. reflexivity.
  - vm_compute. reflexivity.
Defined.

Lemma pf2e_search_stale_aborts_witness :
  (exists e, fst (Demo.search "fire" Demo.after_delete) = Raised e)
  /\ (forall text, fst (Demo.search "fire" Demo.after_delete)
                   <> Returned text).
Proof.
  apply (pf2e_search_stale_aborts Demo.title Demo.json_value Demo.json_load
           Demo.json_dumps Demo.extract "fire" Demo.after_delete
           (mkMatch "fireball" 75 [])).
  - rewrite DemoFacts.fire_kept. right. left. reflexivity.
  - exists Demo.fireball_path. split; [vm_compute; reflexivity|].
    left. eexists. vm_compute. reflexivity.
Defined.

Lemma pf2e_search_deterministic_stateless_witness :
  fst (Demo.search "fire" Demo.started)
  = fst (Demo.search "fire" (snd (Demo.search "fire" Demo.started)))
  /\ same_world Demo.started (snd (Demo.search "fire" Demo.started))
  /\ same_world (snd (Demo.search "fire" Demo.started))
       (snd (Demo.search "fire" (snd (Demo.search "fire" Demo.started)))).
Proof.
  apply (pf2e_search_deterministic_stateless Demo.title Demo.json_value
           Demo.json_load Demo.json_dumps Demo.extract "fire" Demo.started
           (snd (Demo.search "fire" Demo.started))).
  apply search_same_world.
Defined.

(** C8 at a query whose candidates load.  The query keeps two candidates,
    [fireball] first; both keys are in the index and both files are on disk
    with documents that parse.  The tuples the scorer returns have two
    items, the unpacking of line 42 raises on the first of them, and no
    block is returned: nothing is looked up or opened. *)
Theorem pf2e_search_raises_where_blocks_are_due :
  good_matches (Demo.extract "fireball" (PyDict.keys (INDEX Demo.started)) 3)
    = [mkMatch "fireball" 100 []; mkMatch "fire shield" 75 []]
  /\ PyDict.getitem (INDEX Demo.started) "fireball" = Some Demo.fireball_path
  /\ PyDict.getitem (INDEX Demo.started) "fire shield"
     = Some Demo.fire_shield_path
  /\ disk Demo.started Demo.fireball_path = Returned "3"
  /\ disk Demo.started Demo.fire_shield_path = Returned "4"
  /\ Demo.json_load "3" = Returned "3"
  /\ Demo.json_load "4" = Returned "4"
  /\ Demo.search "fireball" Demo.started
     = (Raised (ValueError_unpack 2), Demo.started).
Proof. repeat split; vm_compute; reflexivity. Qed.

Lemma pf2e_search_blank_query_witness :
  PyStr.all_space "  " = true
  /\ Demo.search "  " Demo.after_delete
     = (Returned "No rules found matching '  '.", Demo.after_delete).
Proof.
  split; [reflexivity|].
  apply (pf2e_search_blank_query Demo.title Demo.json_value Demo.json_load
           Demo.json_dumps Demo.extract "  " Demo.after_delete).
  - intros q choices limit m. apply DemoFacts.extract_blank.
  - reflexivity.
Defined.

Lemma pf2e_search_pairs_raise_witness :
  Demo.search "fireball" Demo.started
  = (Raised (ValueError_unpack 2), Demo.started).
Proof.
  apply (pf2e_search_pairs_raise Demo.title Demo.json_value Demo.json_load
           Demo.json_dumps Demo.extract "fireball" Demo.started).
  - intros m Hin. vm_compute in Hin.
    destruct Hin as [<-|[<-|[<-|[]]]]; reflexivity.
  - vm_compute. discriminate.
Defined.

Lemma pf2e_search_output_shape_witness :
  fst (Demo.search "fi" Demo.started)
  = Returned "No rules found matching 'fi'."
  /\ good_matches (Demo.extract "fi" (PyDict.keys (INDEX Demo.started)) 3)
     = [].
Proof.
  assert (R : fst (pf2e_search Demo.title Demo.json_value Demo.json_load
                     Demo.json_dumps Demo.extract "fi" Demo.started)
              = Returned "No rules found matching 'fi'.")
    by (vm_compute; reflexivity).
  split; [exact R|].
  pose proof (pf2e_search_output_shape Demo.title Demo.json_value
                Demo.json_load Demo.json_dumps Demo.extract "fi"
                Demo.started "No rules found matching 'fi'." R) as S.
  destruct S as [[K _]|[_ P]].
  - exact K.
  - vm_compute in P. discriminate P.
Defined.

(* ================================================================== *)
(** * The index builder on the small instance *)

Lemma build_global_index_distinct_keys_witness :
  build_global_index Demo.data = map index_entry (json_files Demo.data).
Proof.
  apply (build_global_index_distinct_keys Demo.data).
  vm_compute.
  repeat (constructor; [simpl; intuition discriminate|]). constructor.
Defined.

Lemma build_global_index_entries_sound_witness :
  PyStr.endswith Demo.fireball_path ".json" = true
  /\ exists root file,
       In (root, file) (json_files Demo.data)
       /\ "fireball" = name_key file
       /\ Demo.fireball_path = PosixPath.join root file.
Proof.
  apply (build_global_index_entries_sound Demo.data "fireball").
  vm_compute. reflexivity.
Defined.

Lemma name_key_of_plain_stem_witness :
  PyStr.contains "fire_shield" ".json" = false
  /\ name_key "fire_shield.json" = "fire shield".
Proof.
  split; [reflexivity|].
  destruct (name_key_of_plain_stem "fire_shield" eq_refl) as (E & _).
  exact E.
Defined.

Lemma build_global_index_paths_under_data_path_witness :
  exists rest, Demo.fireball_path = DATA_PATH ++ PosixPath.sep ++ rest.
Proof.
  apply (build_global_index_paths_under_data_path Demo.data "fireball").
  - vm_compute. reflexivity.
  - vm_compute. reflexivity.
Defined.

Lemma category_of_visited_file_witness :
  PosixPath.basename (PosixPath.dirname Demo.fireball_path) = "spell".
Proof.
  assert (W : well_named Demo.data = true) by (vm_compute; reflexivity).
  assert (V : In (DATA_PATH ++ "/spell", "fireball.json")
                 (visited_files Demo.data))
    by (vm_compute; right; left; reflexivity).
  destruct (category_of_visited_file Demo.data _ _ W V) as (_ & C & _).
  exact C.
Defined.
